(** * NewsBrief AI: the digest pipeline of [pipeline.py]

    A shallow embedding of [pipeline.py] (module load, [get_summarizer],
    [fetch_articles], [summarize_article], [explain_importance],
    [generate_news_digest]) and the properties of the pipeline that the
    specification states.

    Python values are an inductive type, exceptions are values of [exn],
    and the code runs in a state-and-exception monad whose state holds the
    module global [_summarizer] and the trace of calls made to the outside
    world (the HTTP request, the construction of the model, each model
    invocation). The outside world itself is a record of oracles.

    After the pipeline come the script of [app.py], run by run, and the
    metadata table of [ingest_and_index.py]. *)

From Stdlib Require Import List ZArith Lia Bool String Ascii NArith.
From Stdlib Require Import PrimFloat DecimalString.
Import ListNotations.

Set Implicit Arguments.

(** ** Python strings *)

(** A Python [str] is a sequence of Unicode code points. *)
Definition char := N.
Definition pystr := list char.

(** String literals of the source are ASCII. *)
Definition lit (s : string) : pystr :=
  map N_of_ascii (list_ascii_of_string s).

Fixpoint pystr_eqb (a b : pystr) : bool :=
  match a, b with
  | [], [] => true
  | x :: a', y :: b' => N.eqb x y && pystr_eqb a' b'
  | _, _ => false
  end.

(** [str.isspace] on one code point, the separator set of [str.split()]. *)
Definition isspace (c : char) : bool :=
  ((9 <=? c) && (c <=? 13) || (28 <=? c) && (c <=? 32)
   || (c =? 133) || (c =? 160) || (c =? 5760)
   || (8192 <=? c) && (c <=? 8202)
   || (c =? 8232) || (c =? 8233) || (c =? 8239) || (c =? 8287)
   || (c =? 12288))%N.

(** [s.split()]: the maximal runs of non-whitespace, in order. [cur] is the
    word being read, reversed. *)
Fixpoint split_from (cur : pystr) (s : pystr) : list pystr :=
  match s with
  | [] => match cur with [] => [] | _ => [rev cur] end
  | c :: s' =>
      if isspace c
      then match cur with
           | [] => split_from [] s'
           | _ => rev cur :: split_from [] s'
           end
      else split_from (c :: cur) s'
  end.

Definition split (s : pystr) : list pystr := split_from [] s.

(** [s[:n]] on a sequence, for [0 <= n]. *)
Definition slice_to {A} (n : nat) (s : list A) : list A := firstn n s.
Arguments slice_to {A} n s : simpl never.

(** [str(n)] for an [int]. *)
Definition str_of_int (z : Z) : pystr :=
  lit (NilZero.string_of_int (Z.to_int z)).

(** ** Python values *)

(** The values that [response.json()] can produce, which are also the
    values held by the dictionaries the pipeline builds. A [dict] keeps
    its items in insertion order as an association list whose keys are
    meant distinct; lookup takes the first match. *)
#[local] Unset Elimination Schemes.
Inductive value : Type :=
| VNone
| VBool (b : bool)
| VInt (z : Z)
| VFloat (f : float)
| VStr (s : pystr)
| VList (l : list value)
| VDict (d : list (pystr * value)).
#[local] Set Elimination Schemes.

Definition dict := list (pystr * value).

(** Truth value of an object, as tested by [not x] and [x or y]. *)
Definition truthy (v : value) : bool :=
  match v with
  | VNone => false
  | VBool b => b
  | VInt z => negb (Z.eqb z 0)
  | VFloat f => negb (PrimFloat.eqb f PrimFloat.zero)
  | VStr s => match s with [] => false | _ => true end
  | VList l => match l with [] => false | _ => true end
  | VDict d => match d with [] => false | _ => true end
  end.

(** [x or y] on values (both operands here are free of effects). *)
Definition py_or (x y : value) : value := if truthy x then x else y.

(** [v != "..."] against a string literal: a value that is not a [str]
    differs from every [str]. *)
Definition ne_str (v : value) (s : pystr) : bool :=
  match v with
  | VStr t => negb (pystr_eqb t s)
  | _ => true
  end.

Fixpoint lookup {V} (k : pystr) (d : list (pystr * V)) : option V :=
  match d with
  | [] => None
  | (k', v) :: d' => if pystr_eqb k' k then Some v else lookup k d'
  end.

(** ** Exceptions and results *)

Inductive exn : Type :=
| AttributeError
| TypeError
| KeyError
| IndexError
| RuntimeError (msg : pystr)
| DictSliceError
    (** what [d[:n]] raises on a [dict]: [TypeError] (unhashable type:
        'slice') up to Python 3.11, [KeyError] from Python 3.12 on, where
        a slice is hashable and is looked up as a key. The repository
        pins no interpreter, so this value stands for either and is
        equal to neither [TypeError] nor [KeyError] here. *)
| LibraryException (name : pystr)
    (** an exception of a library, derived from [Exception]:
        [requests.RequestException], [JSONDecodeError], [OSError], ... *)
| LibraryBaseException (name : pystr)
    (** derived from [BaseException] only: [KeyboardInterrupt],
        [SystemExit] *).

(** Whether [except Exception] catches it. *)
Definition is_Exception (e : exn) : bool :=
  match e with
  | LibraryBaseException _ => false
  | _ => true
  end.

Inductive result (A : Type) : Type :=
| Ok (a : A)
| Raise (e : exn).
Arguments Ok {A} a.
Arguments Raise {A} e.

Definition rbind {A B} (r : result A) (k : A -> result B) : result B :=
  match r with
  | Ok a => k a
  | Raise e => Raise e
  end.

(** [d.get(k)] and [d.get(k, default)] as methods of an arbitrary object:
    only a [dict] has the attribute. *)
Definition get_default (o : value) (k : pystr) (default : value) : result value :=
  match o with
  | VDict d => Ok (match lookup k d with Some v => v | None => default end)
  | _ => Raise AttributeError
  end.

Definition get (o : value) (k : pystr) : result value := get_default o k VNone.

(** [o[:n]]: strings and lists are sliced. A [dict] raises the error of
    its interpreter, [DictSliceError]; every other object here is not
    subscriptable and raises [TypeError]. *)
Definition slice_value (n : nat) (o : value) : result value :=
  match o with
  | VStr s => Ok (VStr (slice_to n s))
  | VList l => Ok (VList (slice_to n l))
  | VDict _ => Raise DictSliceError
  | _ => Raise TypeError
  end.

(** [for a in o]: the items the loop visits. Iterating a [dict] visits
    its keys, iterating a [str] its characters. *)
Definition iterate (o : value) : result (list value) :=
  match o with
  | VList l => Ok l
  | VStr s => Ok (map (fun c => VStr [c]) s)
  | VDict d => Ok (map (fun kv => VStr (fst kv)) d)
  | _ => Raise TypeError
  end.

(** [o[0]] and [o["summary_text"]] on the object a summarizer returns. *)
Definition index0 (o : value) : result value :=
  match o with
  | VList (x :: _) => Ok x
  | VList [] => Raise IndexError
  | VStr (c :: _) => Ok (VStr [c])
  | VStr [] => Raise IndexError
  | VDict _ => Raise KeyError
  | _ => Raise TypeError
  end.

Definition subscript (o : value) (k : pystr) : result value :=
  match o with
  | VDict d => match lookup k d with Some v => Ok v | None => Raise KeyError end
  | _ => Raise TypeError
  end.

(** [str(v)], as an f-string formats a field. The [repr] of floats and of
    containers is left to the runtime [py_repr]. *)
Definition py_str (py_repr : value -> pystr) (v : value) : pystr :=
  match v with
  | VStr s => s
  | VNone => lit "None"
  | VBool true => lit "True"
  | VBool false => lit "False"
  | VInt z => str_of_int z
  | _ => py_repr v
  end.

(** [text.split()] as a method of an arbitrary object. *)
Definition split_method (o : value) : result (list pystr) :=
  match o with
  | VStr s => Ok (split s)
  | _ => Raise AttributeError
  end.

(** ** The outside world *)

(** What the program asks of the outside world, in the order asked. *)
Inductive event : Type :=
| EvGet (url : pystr) (timeout : Z)
| EvPipeline (task model framework : pystr)
| EvSummarize (text : value) (max_length min_length : Z) (do_sample : bool).

Record Response : Type := {
  status_code : Z;
  json : result value  (** what [response.json()] returns or raises *)
}.

(** The object [transformers.pipeline] returns: calling it yields an
    object or raises. Every oracle sees the trace so far, so its answers
    may change from one call to the next. *)
Record Summarizer : Type := {
  call : list event -> value -> Z -> Z -> bool -> result value
}.

Record World : Type := {
  environ : list (pystr * pystr);   (** [os.environ] when the module loads *)
  dotenv : list (pystr * pystr);    (** the entries of the [.env] file *)
  requests_get : list event -> pystr -> Z -> result Response;
  pipeline : list event -> pystr -> pystr -> pystr -> result Summarizer;
  py_repr : value -> pystr
}.

(** ** Module state and the monad of the code *)

Record State : Type := {
  _summarizer : option Summarizer;
  trace : list event
}.

Definition M (A : Type) : Type := State -> result A * State.

Definition ret {A} (a : A) : M A := fun st => (Ok a, st).

Definition bind {A B} (c : M A) (k : A -> M B) : M B := fun st =>
  match c st with
  | (Ok a, st') => k a st'
  | (Raise e, st') => (Raise e, st')
  end.

Definition lift {A} (r : result A) : M A := fun st => (r, st).

Declare Scope py_scope.
Delimit Scope py_scope with py.
Notation "x <- c ;; k" := (bind c (fun x => k))
  (at level 61, c at next level, right associativity) : py_scope.
Notation "x <~ r ;; k" := (rbind r (fun x => k))
  (at level 61, r at next level, right associativity) : py_scope.
Open Scope py_scope.

(** [try: body except Exception: handler]. An exception that does not
    derive from [Exception] passes through. *)
Definition try_except {A} (body handler : M A) : M A := fun st =>
  match body st with
  | (Ok a, st') => (Ok a, st')
  | (Raise e, st') => if is_Exception e then handler st' else (Raise e, st')
  end.

Definition record (ev : event) (st : State) : State :=
  {| _summarizer := _summarizer st; trace := trace st ++ [ev] |}.

(** [requests.get(url, timeout=t)] *)
Definition http_get (w : World) (url : pystr) (timeout : Z) : M Response :=
  fun st => (requests_get w (trace st) url timeout, record (EvGet url timeout) st).

(** [pipeline(task=..., model=..., framework=...)] *)
Definition new_pipeline (w : World) (task model framework : pystr) : M Summarizer :=
  fun st => (pipeline w (trace st) task model framework,
             record (EvPipeline task model framework) st).

(** [summarizer(text, max_length=..., min_length=..., do_sample=...)] *)
Definition invoke (h : Summarizer) (text : value) (max_length min_length : Z)
    (do_sample : bool) : M value :=
  fun st => (call h (trace st) text max_length min_length do_sample,
             record (EvSummarize text max_length min_length do_sample) st).

Definition read_summarizer : M (option Summarizer) :=
  fun st => (Ok (_summarizer st), st).

Definition write_summarizer (h : Summarizer) : M unit :=
  fun st => (Ok tt, {| _summarizer := Some h; trace := trace st |}).

(** ** Module load: lines 15 to 24 of [pipeline.py] *)

(** [load_dotenv()]: each variable of the [.env] file is put in the
    environment unless the environment has it already; of two entries of
    the file for one variable the later stands. *)
Definition load_dotenv (file env : list (pystr * pystr)) : list (pystr * pystr) :=
  env ++ rev (filter (fun kv => match lookup (fst kv) env with
                               | Some _ => false
                               | None => true
                               end) file).

(** [os.getenv(k)] *)
Definition os_getenv (env : list (pystr * pystr)) (k : pystr) : value :=
  match lookup k env with
  | Some v => VStr v
  | None => VNone
  end.

(** The module globals that are bound once and for all at import. *)
Record Module : Type := {
  API_KEY : value;
  MAX_ARTICLES : Z
}.

Definition key_not_found : pystr :=
  lit "NEWS_API_KEY not found. Set it in .env or Streamlit secrets.".

(** Importing [pipeline]: the globals, or the exception the import raises. *)
Definition load_module (w : World) : result Module :=
  let env := load_dotenv (dotenv w) (environ w) in
  let API_KEY := os_getenv env (lit "NEWS_API_KEY") in
  if negb (truthy API_KEY)
  then Raise (RuntimeError key_not_found)
  else Ok {| API_KEY := API_KEY; MAX_ARTICLES := 5 |}.

(** The state of a freshly imported module: [_summarizer = None], and
    nothing asked of the world yet. *)
Definition initial_state : State := {| _summarizer := None; trace := [] |}.

(** ** [get_summarizer] *)

Definition get_summarizer (w : World) : M Summarizer :=
  cached <- read_summarizer ;;
  match cached with
  | None =>
      h <- new_pipeline w (lit "summarization") (lit "facebook/bart-large-cnn")
             (lit "pt") ;;
      _ <- write_summarizer h ;;
      ret h
  | Some h => ret h
  end.

(** ** [fetch_articles] *)

Module Article.
(** The dictionary [fetch_articles] builds for one raw result. *)
Record t : Type := {
  title : value;
  text : value;
  source : value;
  date : value;
  url : value
}.
End Article.

(** The body of the [for a in ...] loop of [fetch_articles]: the
    dictionary appended for the raw result [a]. *)
Definition normalize (a : value) : result Article.t :=
  text <~ (description <~ get a (lit "description") ;;
           if truthy description then Ok description
           else get a (lit "content")) ;;
  title <~ get a (lit "title") ;;
  source <~ (src <~ get_default a (lit "source") (VDict []) ;;
             get src (lit "name")) ;;
  date <~ (published <~ get a (lit "publishedAt") ;;
           slice_value 10 (py_or published (VStr []))) ;;
  url <~ get a (lit "url") ;;
  Ok {| Article.title := title;
        Article.text := text;
        Article.source := source;
        Article.date := date;
        Article.url := url |}.

Fixpoint normalize_loop (items : list value) (articles : list Article.t)
  : result (list Article.t) :=
  match items with
  | [] => Ok articles
  | a :: rest =>
      art <~ normalize a ;;
      normalize_loop rest (articles ++ [art])
  end.

Definition search_url (m : Module) (w : World) (query : pystr) (max_results : Z)
  : pystr :=
  lit "https://newsapi.org/v2/everything"
  ++ lit "?q=" ++ query
  ++ lit "&pageSize=" ++ str_of_int max_results
  ++ lit "&language=en&apiKey=" ++ py_str (py_repr w) (API_KEY m).

(** [None] stands for the [return []] of the [except] clause. *)
Definition fetch_articles (m : Module) (w : World) (query : pystr)
    (max_results : Z) : M (list Article.t) :=
  let url := search_url m w query max_results in
  fetched <- try_except
               (response <- http_get w url 10 ;;
                data <- lift (json response) ;;
                ret (Some data))
               (ret None) ;;
  match fetched with
  | None => ret []
  | Some data =>
      status <- lift (get data (lit "status")) ;;
      if ne_str status (lit "ok") then ret []
      else
        raw <- lift (get_default data (lit "articles") (VList [])) ;;
        items <- lift (iterate raw) ;;
        lift (normalize_loop items [])
  end.

(** ** [summarize_article] *)

Definition insufficient_content : pystr :=
  lit "Summary unavailable due to insufficient article content.".

Definition processing_limits : pystr :=
  lit "Summary could not be generated due to processing limits.".

(** The test [not text or len(text.split()) < 40]. *)
Definition too_short (text : value) : result bool :=
  if negb (truthy text) then Ok true
  else words <~ split_method text ;;
       Ok (List.length words <? 40)%nat.

(** The body of the [try] block: the model is invoked and the summary
    text is read off its answer. *)
Definition model_call (summarizer : Summarizer) (text : value) : M value :=
  summary <- invoke summarizer text 120 40 false ;;
  first <- lift (index0 summary) ;;
  lift (subscript first (lit "summary_text")).

Definition summarize_article (w : World) (text : value) : M value :=
  short <- lift (too_short text) ;;
  if (short : bool) then ret (VStr insufficient_content)
  else
    text <- lift (slice_value 3000 text) ;;
    summarizer <- get_summarizer w ;;
    try_except
      (model_call summarizer text)
      (ret (VStr processing_limits)).

(** ** [explain_importance] *)

Definition explain_importance (w : World) (title : value) : pystr :=
  lit "This development around '" ++ py_str (py_repr w) title
  ++ lit "' may influence public opinion, "
  ++ lit "market trends, or upcoming decisions related to this topic.".

(** ** [generate_news_digest] *)

Module Entry.
(** The dictionary [generate_news_digest] builds for one article. *)
Record t : Type := {
  title : value;
  source : value;
  date : value;
  summary : value;
  why_it_matters : value;
  url : value
}.
End Entry.

Fixpoint digest_loop (w : World) (articles : list Article.t)
    (digest : list Entry.t) : M (list Entry.t) :=
  match articles with
  | [] => ret digest
  | art :: rest =>
      summary <- summarize_article w (Article.text art) ;;
      let why_it_matters := explain_importance w (Article.title art) in
      digest_loop w rest
        (digest ++ [ {| Entry.title := Article.title art;
                        Entry.source := Article.source art;
                        Entry.date := Article.date art;
                        Entry.summary := summary;
                        Entry.why_it_matters := VStr why_it_matters;
                        Entry.url := Article.url art |} ])
  end.

Definition generate_news_digest (m : Module) (w : World) (user_query : pystr)
  : M (list Entry.t) :=
  articles <- fetch_articles m w user_query (MAX_ARTICLES m) ;;
  digest_loop w articles [].

(** A process that imports the module and then asks for one digest, as
    [app.py] and the [__main__] block do. *)
Definition run (w : World) (user_query : pystr) : result (list Entry.t) * State :=
  match load_module w with
  | Raise e => (Raise e, initial_state)
  | Ok m => generate_news_digest m w user_query initial_state
  end.

(** * Properties *)

Unset Implicit Arguments.

(** ** Vocabulary of the statements *)

(** The body text of an article as the provider gives it: absent
    ([None]) or a string. *)
Definition body_text (t : option pystr) : value :=
  match t with
  | None => VNone
  | Some s => VStr s
  end.

(** Its number of whitespace-separated words; an absent text has none. *)
Definition word_count (t : option pystr) : nat :=
  match t with
  | None => 0
  | Some s => List.length (split s)
  end.

Definition str_or_none (v : value) : bool :=
  match v with
  | VNone | VStr _ => true
  | _ => false
  end.

(** [d.get(k)] seen from the dictionary's items. *)
Definition field (d : dict) (k : pystr) : value :=
  match lookup k d with
  | Some v => v
  | None => VNone
  end.

(** The texts handed to the model along a trace, oldest first. *)
Fixpoint passed_to_model (tr : list event) : list value :=
  match tr with
  | [] => []
  | EvSummarize text _ _ _ :: tr' => text :: passed_to_model tr'
  | _ :: tr' => passed_to_model tr'
  end.

(** A summarizer whose failures all derive from [Exception]. *)
Definition catchable (h : Summarizer) : Prop :=
  forall tr text max_length min_length do_sample e,
    call h tr text max_length min_length do_sample = Raise e ->
    is_Exception e = true.

(** The model handle is there, or can be built whenever it is asked for. *)
Definition model_available (w : World) (st : State) : Prop :=
  match _summarizer st with
  | Some h => catchable h
  | None =>
      forall tr, exists h,
        pipeline w tr (lit "summarization") (lit "facebook/bart-large-cnn")
          (lit "pt") = Ok h
        /\ catchable h
  end.

(** The one construction [get_summarizer] ever asks for. *)
Definition model_pipeline : event :=
  EvPipeline (lit "summarization") (lit "facebook/bart-large-cnn") (lit "pt").

(** The calls that build or run the model. *)
Definition is_model_event (ev : event) : bool :=
  match ev with
  | EvPipeline _ _ _ | EvSummarize _ _ _ _ => true
  | EvGet _ _ => false
  end.

(** What [fetch_articles] makes of a parsed response body: the code after
    the [try] statement. *)
Definition decode (data : value) : result (list Article.t) :=
  status <~ get data (lit "status") ;;
  if ne_str status (lit "ok") then Ok []
  else
    raw <~ get_default data (lit "articles") (VList []) ;;
    items <~ iterate raw ;;
    normalize_loop items [].

(** The entry of the digest that belongs to an article: the four fields
    copied through, and the templated note. *)
Definition entry_for (w : World) (art : Article.t) (e : Entry.t) : Prop :=
  Entry.title e = Article.title art
  /\ Entry.source e = Article.source art
  /\ Entry.date e = Article.date art
  /\ Entry.url e = Article.url art
  /\ Entry.why_it_matters e = VStr (explain_importance w (Article.title art)).

(** The one request [fetch_articles] sends. *)
Definition search_request (m : Module) (w : World) (query : pystr)
    (max_results : Z) : event :=
  EvGet (search_url m w query max_results) 10.

(** The answers of the provider that leave nothing to show: the request
    fails, the body is not JSON, the body reports a failure, or the body
    lists no article. The HTTP status code plays no part. *)
Inductive no_results : result Response -> Prop :=
| transport_error (e : exn) :
    is_Exception e = true ->
    no_results (Raise e)
| unparseable_body (code : Z) (e : exn) :
    is_Exception e = true ->
    no_results (Ok {| status_code := code; json := Raise e |})
| provider_failure (code : Z) (d : dict) :
    lookup (lit "status") d <> Some (VStr (lit "ok")) ->
    no_results (Ok {| status_code := code; json := Ok (VDict d) |})
| zero_results (code : Z) (d : dict) :
    lookup (lit "status") d = Some (VStr (lit "ok")) ->
    lookup (lit "articles") d = None
    \/ lookup (lit "articles") d = Some (VList []) ->
    no_results (Ok {| status_code := code; json := Ok (VDict d) |}).

(** A raw result shaped as the provider documents it: an object whose
    [description], [content] and [publishedAt] are strings or null and
    whose [source], when there, is an object. *)
Definition is_provider_article (a : value) : bool :=
  match a with
  | VDict d =>
      str_or_none (field d (lit "description"))
      && str_or_none (field d (lit "content"))
      && str_or_none (field d (lit "publishedAt"))
      && match lookup (lit "source") d with
         | Some (VDict _) | None => true
         | Some _ => false
         end
  | _ => false
  end.

(** The environment [os.getenv] reads, after [load_dotenv()]. *)
Definition environment (w : World) : list (pystr * pystr) :=
  load_dotenv (dotenv w) (environ w).

(** Unfolds the primitives of the monad. *)
Ltac py_unfold :=
  unfold bind, ret, lift, try_except, read_summarizer, write_summarizer,
    new_pipeline, invoke, http_get, record.

(** ** Sample worlds *)

(** [n] four-letter words, each followed by a blank. *)
Definition words (n : nat) : pystr := List.concat (repeat (lit "word ") n).

(** A raw result shaped as the provider documents it. *)
Definition raw_article (title : string) (description content : value)
    (name published link : string) : value :=
  VDict [ (lit "source", VDict [ (lit "id", VNone); (lit "name", VStr (lit name)) ]);
          (lit "author", VNone);
          (lit "title", VStr (lit title));
          (lit "description", description);
          (lit "url", VStr (lit link));
          (lit "publishedAt", VStr (lit published));
          (lit "content", content) ].

Definition raw_charging : value :=
  raw_article "Charging networks expand" (VStr (words 45)) (VStr (words 200))
    "Reuters" "2025-10-03T08:15:00Z" "https://example.com/charging".

Definition raw_brief : value :=
  raw_article "Battery recall" (VStr (words 10)) VNone
    "BBC News" "2025-10-02T17:40:12Z" "https://example.com/recall".

Definition raw_long : value :=
  raw_article "Solid-state cells" VNone (VStr (words 700))
    "TechCrunch" "2025-10-01T06:00:00Z" "https://example.com/cells".

Definition provider_body (articles : list value) : value :=
  VDict [ (lit "status", VStr (lit "ok"));
          (lit "totalResults", VInt (Z.of_nat (List.length articles)));
          (lit "articles", VList articles) ].

Definition provider_error : value :=
  VDict [ (lit "status", VStr (lit "error"));
          (lit "code", VStr (lit "rateLimited"));
          (lit "message", VStr (lit "Too many requests.")) ].

(** A model that answers, and one that fails on every text. *)
Definition bart : Summarizer :=
  {| call := fun _ _ _ _ _ =>
       Ok (VList [ VDict [ (lit "summary_text", VStr (lit "A generated summary.")) ] ]) |}.

Definition exhausted : Summarizer :=
  {| call := fun _ _ _ _ _ => Raise (LibraryException (lit "IndexError")) |}.

Definition answer (code : Z) (body : result value)
  : list event -> pystr -> Z -> result Response :=
  fun _ _ _ => Ok {| status_code := code; json := body |}.

Definition world_of (get : list event -> pystr -> Z -> result Response)
    (model : result Summarizer) : World :=
  {| environ := [ (lit "PATH", lit "/usr/bin"); (lit "NEWS_API_KEY", lit "0123abcd") ];
     dotenv := [];
     requests_get := get;
     pipeline := fun _ _ _ _ => model;
     py_repr := fun _ => lit "<object>" |}.

Definition loaded : Module :=
  {| API_KEY := VStr (lit "0123abcd"); MAX_ARTICLES := 5 |}.

(** Three results for one topic, the second with a ten-word description. *)
Definition ev_world : World :=
  world_of (answer 200 (Ok (provider_body [raw_charging; raw_brief; raw_long])))
    (Ok bart).

(** The model files cannot be loaded. *)
Definition no_model_world : World :=
  world_of (answer 200 (Ok (provider_body [raw_charging; raw_brief; raw_long])))
    (Raise (LibraryException (lit "OSError"))).

(** The model loads and then fails on every call. *)
Definition exhausted_world : World :=
  world_of (answer 200 (Ok (provider_body [raw_charging; raw_brief; raw_long])))
    (Ok exhausted).

(** A server error whose body nevertheless reads as a success. *)
Definition error_500_world : World :=
  world_of (answer 500 (Ok (provider_body [raw_brief]))) (Ok bart).

(** The provider refuses the request. *)
Definition rate_limited_world : World :=
  world_of (answer 429 (Ok provider_error)) (Ok bart).

(** The provider ignores [pageSize] and sends six results. *)
Definition six_world : World :=
  world_of
    (answer 200
       (Ok (provider_body
              [raw_charging; raw_brief; raw_long; raw_brief; raw_charging; raw_brief])))
    (Ok bart).

(** No credential, neither in the environment nor in [.env]. *)
Definition no_key_world : World :=
  {| environ := [ (lit "PATH", lit "/usr/bin") ];
     dotenv := [ (lit "DEBUG", lit "1") ];
     requests_get := answer 200 (Ok (provider_body [raw_charging]));
     pipeline := fun _ _ _ _ => Ok bart;
     py_repr := fun _ => lit "<object>" |}.

(** * [app.py]: the Streamlit page *)

From Stdlib Require QArith.

(** A string of one code point, for the characters of the page that are
    not ASCII. *)
Definition chr (c : N) : pystr := [c].

(** [s.strip()]: whitespace removed at both ends. *)
Fixpoint lstrip (s : pystr) : pystr :=
  match s with
  | [] => []
  | c :: s' => if isspace c then lstrip s' else s
  end.

Definition strip (s : pystr) : pystr := rev (lstrip (rev (lstrip s))).

Module App.

(** What the script puts on the page, call by call. A [spinner] is on the
    page only while its block runs. *)
#[local] Unset Elimination Schemes.
Inductive element : Type :=
| set_page_config (page_title page_icon layout : pystr)
| title (body : pystr)
| markdown (body : pystr)
| text_input (label placeholder : pystr)
| columns (blocks : list (list element))
| button (label : pystr)
| warning (body : pystr)
| spinner (text : pystr)
| error (body : pystr)
| exception (e : exn)
| success (body : pystr)
| expander (label : pystr) (children : list element)
| caption (body : pystr).
#[local] Set Elimination Schemes.

(** [st.session_state.results]: not set yet, [None], or a digest. *)
Inductive slot : Type :=
| Absent
| IsNone
| Holds (digest : list Entry.t).

(** What outlives a run of the script: the imported [pipeline] module,
    the store of [st.cache_data] (per query, when the digest was stored
    and the digest), and the session state. *)
Record Server : Type := {
  process : State;
  cache : list (pystr * (QArith_base.Q * list Entry.t));
  results : slot
}.

(** What a run is given: the widgets' values, the readings of the cache's
    clock (seconds) when it is looked up and when it is written, and the
    current year. *)
Record Inputs : Type := {
  query : pystr;
  get_news : bool;
  reset_app : bool;
  now : QArith_base.Q;
  stored_at : QArith_base.Q;
  year : Z
}.

(** How a run ends: at the end of the script, at [st.rerun()], or with an
    exception that nothing in the script catches. *)
Inductive outcome : Type :=
| Finished
| Rerun
| Uncaught (e : exn).

Definition set_results (r : slot) (sv : Server) : Server :=
  {| process := process sv; cache := cache sv; results := r |}.

(** Lines 17 and 18: [results] is set to [None] unless the session has
    it already. *)
Definition initialise (sv : Server) : Server :=
  match results sv with
  | Absent => set_results IsNone sv
  | _ => sv
  end.

(** ** [cached_news_digest] *)

(** [ttl=900] *)
Definition ttl : QArith_base.Q := QArith_base.Qmake 900 1.

(** An entry is served as long as the clock reads less than the time it
    was stored plus [ttl]. *)
Definition fresh (clock stored : QArith_base.Q) : bool :=
  negb (QArith_base.Qle_bool (QArith_base.Qplus stored ttl) clock).

(** The decorated function is run and its value stored; an exception is
    not stored. *)
Definition call_through (m : Module) (w : World) (i : Inputs)
    (user_query : pystr) (sv : Server) : result (list Entry.t) * Server :=
  match generate_news_digest m w user_query (process sv) with
  | (Ok digest, st') =>
      (Ok digest,
       {| process := st';
          cache := (user_query, (stored_at i, digest)) :: cache sv;
          results := results sv |})
  | (Raise e, st') =>
      (Raise e,
       {| process := st'; cache := cache sv; results := results sv |})
  end.

Definition cached_news_digest (m : Module) (w : World) (i : Inputs)
    (user_query : pystr) (sv : Server) : result (list Entry.t) * Server :=
  match lookup user_query (cache sv) with
  | Some (stored, digest) =>
      if fresh (now i) stored then (Ok digest, sv)
      else call_through m w i user_query sv
  | None => call_through m w i user_query sv
  end.

(** ** The script, section by section *)

Definition intro : pystr :=
  chr 10 ++ lit "**What is this?**  " ++ chr 10
  ++ lit "NewsBrief AI fetches the latest real-time news articles on any topic you choose,  "
  ++ chr 10
  ++ lit "summarizes them into short, easy-to-read insights, and explains *why they matter*."
  ++ chr 10 ++ chr 10
  ++ lit "Perfect for staying informed " ++ chr 8212 ++ lit " fast." ++ chr 10.

(** Lines 10 to 51: page config, header, user input, buttons. *)
Definition header : list element :=
  [ set_page_config (lit "NewsBrief AI " ++ chr 128240) (chr 129504) (lit "wide");
    title (chr 129504 ++ lit " NewsBrief AI " ++ chr 8212
           ++ lit " Real-Time News Summarizer");
    markdown intro;
    markdown (lit "---");
    text_input (chr 128269 ++ lit " Enter a news topic:")
      (lit "e.g., iPhone 17 features, AI regulation, electric vehicles");
    columns [ [ button (chr 128240 ++ lit " Get News Summary") ];
              [ button (chr 128260 ++ lit " Reset") ] ] ].

Definition please_enter : pystr :=
  chr 9888 ++ chr 65039 ++ lit " Please enter a topic to search for news.".

Definition went_wrong : pystr :=
  lit "Something went wrong while fetching the news.".

Definition no_articles : pystr :=
  lit "No articles found. Try a different topic.".

Definition fetching (query : pystr) : pystr :=
  lit "Fetching and summarizing news about **" ++ query ++ lit "**...".

(** Lines 59 to 71, the fetch logic: what it shows, the server after it,
    and the exception that leaves it, if any. *)
Definition fetch_logic (m : Module) (w : World) (i : Inputs) (sv : Server)
  : list element * Server * option exn :=
  if get_news i then
    if negb (truthy (VStr (strip (query i))))
    then ([warning please_enter], sv, None)
    else
      match cached_news_digest m w i (query i) sv with
      | (Ok digest, sv') =>
          ([spinner (fetching (query i))], set_results (Holds digest) sv', None)
      | (Raise e, sv') =>
          if is_Exception e
          then ([spinner (fetching (query i)); error went_wrong; exception e],
                sv', None)
          else ([spinner (fetching (query i))], sv', Some e)
      end
  else ([], sv, None).

(** Lines 83 to 89: one expander per entry, numbered from [i]. *)
Fixpoint expanders (w : World) (i : Z) (digest : list Entry.t) : list element :=
  match digest with
  | [] => []
  | r :: rest =>
      expander
        (str_of_int i ++ lit ". " ++ py_str (py_repr w) (Entry.title r)
         ++ lit " (" ++ py_str (py_repr w) (Entry.source r)
         ++ lit ", " ++ py_str (py_repr w) (Entry.date r) ++ lit ")")
        [ markdown (lit "**Summary**  " ++ chr 10
                    ++ py_str (py_repr w) (Entry.summary r));
          markdown (lit "**Why it matters**  " ++ chr 10
                    ++ py_str (py_repr w) (Entry.why_it_matters r));
          markdown (lit "[" ++ chr 128279 ++ lit " Read Full Article]("
                    ++ py_str (py_repr w) (Entry.url r) ++ lit ")") ]
      :: expanders w (i + 1) rest
  end.

Definition nonempty {A} (l : list A) : bool :=
  match l with
  | [] => false
  | _ => true
  end.

(** Lines 74 to 89, the display of the results. *)
Definition display (w : World) (r : slot) : list element :=
  match r with
  | Holds digest =>
      if nonempty digest then
        if negb (nonempty digest) then [error no_articles]
        else
          success (lit "Found " ++ str_of_int (Z.of_nat (List.length digest))
                   ++ lit " articles!")
          :: expanders w 1 digest
      else []
  | _ => []
  end.

(** Lines 92 to 94. *)
Definition footer (i : Inputs) : list element :=
  [ markdown (lit "---");
    caption (lit "Built with " ++ chr 10084 ++ chr 65039
             ++ lit " using Streamlit, Hugging Face, and NewsAPI");
    caption (chr 169 ++ lit " " ++ str_of_int (year i) ++ lit " NewsBrief AI "
             ++ chr 8212 ++ lit " Personal Project by Arya M A") ].

(** One run of the script: the page, the server after it, how it ended.
    The import of [pipeline] comes first; it fails on every run when the
    key is missing. *)
Definition script (w : World) (i : Inputs) (sv : Server)
  : list element * Server * outcome :=
  match load_module w with
  | Raise e => ([], sv, Uncaught e)
  | Ok m =>
      let sv := initialise sv in
      if reset_app i then (header, set_results IsNone sv, Rerun)
      else
        match fetch_logic m w i sv with
        | (shown, sv', Some e) => (header ++ shown, sv', Uncaught e)
        | (shown, sv', None) =>
            (header ++ shown ++ display w (results sv') ++ footer i, sv',
             Finished)
        end
  end.

(** A click, as the user sees it: after [st.rerun()] the script runs once
    more, with the text kept and no button pressed. *)
Definition interact (w : World) (i : Inputs) (sv : Server)
  : list element * Server * outcome :=
  match script w i sv with
  | (_, sv', Rerun) =>
      script w {| query := query i; get_news := false; reset_app := false;
                  now := now i; stored_at := stored_at i; year := year i |} sv'
  | run => run
  end.

(** A server that has just started. *)
Definition started : Server :=
  {| process := initial_state; cache := []; results := Absent |}.

End App.

(** * [ingest_and_index.py]: the metadata table *)

(** [sep.join(l)] on a list of strings. *)
Fixpoint join (sep : pystr) (l : list pystr) : pystr :=
  match l with
  | [] => []
  | [x] => x
  | x :: rest => x ++ sep ++ join sep rest
  end.

Module Ingest.

(** A dictionary of [fetch_sample_articles]. *)
Record item : Type := {
  id : pystr;
  title : pystr;
  text : pystr;
  source : pystr;
  date : pystr;
  url : pystr;
  tags : list pystr
}.

(** A row of the table [articles (id TEXT PRIMARY KEY, title TEXT,
    source TEXT, date TEXT, url TEXT, tags TEXT)]. *)
Record row : Type := {
  col_id : pystr;
  col_title : pystr;
  col_source : pystr;
  col_date : pystr;
  col_url : pystr;
  col_tags : pystr
}.

Definition fetch_sample_articles : list item :=
  [ {| id := lit "1";
       title := lit "AI Regulation Bill Passed in Europe";
       text := lit "The European Parliament has passed a comprehensive AI regulation framework "
               ++ lit "aiming to ensure transparency, fairness, and accountability in artificial intelligence systems. "
               ++ lit "The law affects tech companies and startups operating across the EU.";
       source := lit "BBC News";
       date := lit "2025-10-01";
       url := lit "https://example.com/ai-regulation";
       tags := [lit "politics"; lit "tech"] |};
    {| id := lit "2";
       title := lit "New Breakthrough in Battery Technology";
       text := lit "Scientists have developed a new solid-state battery that promises faster charging "
               ++ lit "and longer lifespan compared to current lithium-ion batteries. "
               ++ lit "The innovation could reshape the electric vehicle industry.";
       source := lit "TechCrunch";
       date := lit "2025-10-02";
       url := lit "https://example.com/battery";
       tags := [lit "science"; lit "technology"] |};
    {| id := lit "3";
       title := lit "Stock Markets Hit Record Highs";
       text := lit "Global stock markets reached record highs following strong quarterly earnings "
               ++ lit "and investor optimism about AI-driven growth. Analysts warn, however, "
               ++ lit "that inflation concerns may cause short-term volatility.";
       source := lit "Reuters";
       date := lit "2025-10-03";
       url := lit "https://example.com/stocks";
       tags := [lit "finance"; lit "business"] |} ].

(** [init_db]: the rows of [articles] in the order of their rowids, for a
    database file that has the table ([Some]) or does not have it yet
    ([None]); [CREATE TABLE IF NOT EXISTS] makes it empty in that case. *)
Definition init_db (file : option (list row)) : list row :=
  match file with
  | Some rows => rows
  | None => []
  end.

(** The values bound to the six [?] of the statement. *)
Definition values (it : item) : row :=
  {| col_id := id it;
     col_title := title it;
     col_source := source it;
     col_date := date it;
     col_url := url it;
     col_tags := join (lit ",") (tags it) |}.

(** [save_meta]: [INSERT OR REPLACE] deletes the row that has the primary
    key of the new one, if any, and inserts the new row, which gets the
    next rowid. *)
Definition save_meta (conn : list row) (it : item) : list row :=
  filter (fun r => negb (pystr_eqb (col_id r) (id it))) conn ++ [values it].

(** Lines 147 to 154 of the script: the sample articles are saved one by
    one. *)
Definition save_all (docs : list item) (conn : list row) : list row :=
  fold_left save_meta docs conn.

Definition main_database (file : option (list row)) : list row :=
  save_all fetch_sample_articles (init_db file).

(** Whether a row has the id of one of the documents. *)
Definition saved_by (docs : list item) (r : row) : bool :=
  existsb (fun it => pystr_eqb (col_id r) (id it)) docs.

End Ingest.

(** ** Vocabulary of the further properties *)

(** A text for which [summarize_article] does not go to the model: a
    string of fewer than 40 words, or any other object that is false. *)
Definition brief (text : value) : bool :=
  match text with
  | VStr s => (List.length (split s) <? 40)%nat
  | _ => negb (truthy text)
  end.

(** The entry of an article whose text is [brief]. *)
Definition placeholder_entry (w : World) (art : Article.t) : Entry.t :=
  {| Entry.title := Article.title art;
     Entry.source := Article.source art;
     Entry.date := Article.date art;
     Entry.summary := VStr insufficient_content;
     Entry.why_it_matters := VStr (explain_importance w (Article.title art));
     Entry.url := Article.url art |}.

(** What the model is given for a text, if anything. *)
Definition model_input (text : value) : list value :=
  match text with
  | VStr s =>
      if (List.length (split s) <? 40)%nat then []
      else [VStr (slice_to 3000 s)]
  | _ => []
  end.

Definition model_inputs (articles : list Article.t) : list value :=
  flat_map (fun art => model_input (Article.text art)) articles.

(** The only calls to the model that the code can make: the one
    construction, and an invocation on a string of at most 3000 characters
    with the fixed generation bounds. *)
Definition model_event_ok (ev : event) : bool :=
  match ev with
  | EvGet _ _ => false
  | EvPipeline task model framework =>
      pystr_eqb task (lit "summarization")
      && pystr_eqb model (lit "facebook/bart-large-cnn")
      && pystr_eqb framework (lit "pt")
  | EvSummarize (VStr s) max_length min_length do_sample =>
      (List.length s <=? 3000)%nat
      && Z.eqb max_length 120 && Z.eqb min_length 40 && negb do_sample
  | EvSummarize _ _ _ _ => false
  end.

(** How often the model was built along a trace. *)
Definition built (tr : list event) : nat :=
  List.length (filter (fun ev => match ev with
                                 | EvPipeline _ _ _ => true
                                 | _ => false
                                 end) tr).

(** How often the model can still be built: once, until it is cached. *)
Definition to_build (st : State) : nat :=
  match _summarizer st with
  | None => 1
  | Some _ => 0
  end.

(** The raw results that the loop of [fetch_articles] can turn into an
    article: objects whose [source] is missing or an object, and whose
    [publishedAt] is false, a string or a list. *)
Definition normalizable (a : value) : bool :=
  match a with
  | VDict d =>
      match lookup (lit "source") d with
      | Some (VDict _) | None => true
      | Some _ => false
      end
      && (negb (truthy (field d (lit "publishedAt")))
          || match field d (lit "publishedAt") with
             | VStr _ | VList _ => true
             | _ => false
             end)
  | _ => false
  end.

(** Two results with ten-word descriptions, and no model to load. *)
Definition brief_world : World :=
  world_of (answer 200 (Ok (provider_body [raw_brief; raw_brief])))
    (Raise (LibraryException (lit "OSError"))).

(** Results that are not what the provider documents: a bare string, and
    an object whose [source] is null. *)
Definition raw_null_source : value :=
  VDict [ (lit "source", VNone);
          (lit "title", VStr (lit "Untitled"));
          (lit "publishedAt", VStr (lit "2025-10-04T00:00:00Z")) ].

Definition misshapen_world : World :=
  world_of (answer 200 (Ok (provider_body [raw_charging; raw_null_source; raw_brief])))
    (Ok bart).

(** A result whose [publishedAt] is an object. *)
Definition raw_dated : value :=
  VDict [ (lit "source", VDict [ (lit "name", VStr (lit "Wire")) ]);
          (lit "title", VStr (lit "Dated"));
          (lit "publishedAt",
           VDict [ (lit "date", VStr (lit "2025-10-04")) ]) ].

Definition dated_world : World :=
  world_of (answer 200 (Ok (provider_body [raw_charging; raw_brief; raw_dated])))
    (Ok bart).

(** The request is interrupted from the keyboard. *)
Definition interrupted_world : World :=
  world_of (fun _ _ _ => Raise (LibraryBaseException (lit "KeyboardInterrupt")))
    (Ok bart).

(** The body is a JSON array. *)
Definition array_world : World :=
  world_of (answer 200 (Ok (VList []))) (Ok bart).

(** A click on the page at second [t] of the cache's clock; a digest
    computed then is stored three seconds later. *)
Definition click (query : string) (get_news reset_app : bool) (t : Z)
  : App.Inputs :=
  {| App.query := lit query;
     App.get_news := get_news;
     App.reset_app := reset_app;
     App.now := QArith_base.Qmake t 1;
     App.stored_at := QArith_base.Qmake (t + 3) 1;
     App.year := 2026 |}.

(** The request cannot be sent. *)
Definition offline_world : World :=
  world_of (fun _ _ _ => Raise (LibraryException (lit "ConnectionError")))
    (Ok bart).

(** The loop of [generate_news_digest], article by article: each article
    goes through [summarize_article], in the order of the list and from
    the state the one before it left, and its entry carries what that
    call returned next to the fields copied from the article. *)
Inductive digested (w : World)
  : State -> list Article.t -> list Entry.t -> State -> Prop :=
| digested_nil (st : State) :
    digested w st [] [] st
| digested_cons (st st1 st' : State) (art : Article.t) (summary : value)
    (rest : list Article.t) (entries : list Entry.t) :
    summarize_article w (Article.text art) st = (Ok summary, st1) ->
    digested w st1 rest entries st' ->
    digested w st (art :: rest)
      ({| Entry.title := Article.title art;
          Entry.source := Article.source art;
          Entry.date := Article.date art;
          Entry.summary := summary;
          Entry.why_it_matters := VStr (explain_importance w (Article.title art));
          Entry.url := Article.url art |} :: entries)
      st'.

(** Six results for [pageSize=5], the sixth with a text of 700 words. *)
Definition overfull_world : World :=
  world_of
    (answer 200
       (Ok (provider_body
              [raw_charging; raw_brief; raw_long; raw_brief; raw_charging; raw_long])))
    (Ok bart).

(** The provider's refusal, sent with status 200. *)
Definition refused_200_world : World :=
  world_of (answer 200 (Ok provider_error)) (Ok bart).

(** ** The embedding on sample inputs *)

Example split_sample :
  split (lit "  two	words ") = [lit "two"; lit "words"].
Proof. reflexivity. Qed.

Example split_blank : split (lit "   ") = [].
Proof. reflexivity. Qed.

Example str_of_int_sample :
  str_of_int 5 = lit "5" /\ str_of_int 0 = lit "0" /\ str_of_int (-12) = lit "-12".
Proof. repeat split; reflexivity. Qed.

Example load_module_sample : load_module ev_world = Ok loaded.
Proof. reflexivity. Qed.

(** A key that only the [.env] file gives is found; one the environment
    has already is kept. *)
Example load_dotenv_sample :
  os_getenv (load_dotenv [ (lit "NEWS_API_KEY", lit "from-file") ]
               [ (lit "PATH", lit "/usr/bin") ]) (lit "NEWS_API_KEY")
  = VStr (lit "from-file")
  /\ os_getenv (load_dotenv [ (lit "NEWS_API_KEY", lit "from-file") ]
                  [ (lit "NEWS_API_KEY", lit "") ]) (lit "NEWS_API_KEY")
     = VStr [].
Proof. split; reflexivity. Qed.

Example search_url_sample :
  search_url loaded ev_world (lit "electric vehicles") 5
  = lit "https://newsapi.org/v2/everything?q=electric vehicles&pageSize=5&language=en&apiKey=0123abcd".
Proof. reflexivity. Qed.

Example normalize_sample :
  normalize raw_brief
  = Ok {| Article.title := VStr (lit "Battery recall");
          Article.text := VStr (words 10);
          Article.source := VStr (lit "BBC News");
          Article.date := VStr (lit "2025-10-02");
          Article.url := VStr (lit "https://example.com/recall") |}.
Proof. reflexivity. Qed.

(** A result that is no object, and one whose [source] is null. *)
Example normalize_misshapen :
  normalize (VStr (lit "status")) = Raise AttributeError
  /\ normalize (VDict [ (lit "title", VStr (lit "T")); (lit "source", VNone) ])
     = Raise AttributeError.
Proof. split; reflexivity. Qed.

(** The scenario of the specification: three results, the second with a
    ten-word description. The model is built once and asked twice. *)
Example electric_vehicles :
  let (res, st) := run ev_world (lit "electric vehicles") in
  match res with
  | Ok digest =>
      map Entry.summary digest
      = [ VStr (lit "A generated summary.");
          VStr insufficient_content;
          VStr (lit "A generated summary.") ]
  | Raise _ => False
  end
  /\ trace st
     = [ search_request loaded ev_world (lit "electric vehicles") 5;
         model_pipeline;
         EvSummarize (VStr (words 45)) 120 40 false;
         EvSummarize (VStr (slice_to 3000 (words 700))) 120 40 false ].
Proof. vm_compute. split; reflexivity. Qed.

(** A body that parses to something other than an object is not caught
    by the [try] statement of [fetch_articles]. *)
Example fetch_articles_json_array :
  fst (fetch_articles loaded (world_of (answer 200 (Ok (VList []))) (Ok bart))
         (lit "electric vehicles") 5 initial_state)
  = Raise AttributeError.
Proof. reflexivity. Qed.

(** ** Basic facts *)

Lemma pystr_eqb_eq (a b : pystr) : pystr_eqb a b = true <-> a = b.
Proof.
  revert b; induction a as [|x a IH]; intros [|y b]; simpl; split;
    try congruence; try reflexivity.
  - intros H. apply andb_true_iff in H as [Hx Hab].
    apply N.eqb_eq in Hx. apply IH in Hab. congruence.
  - intros H. injection H as -> ->.
    rewrite N.eqb_refl. simpl. now apply IH.
Qed.

Lemma ne_str_false (v : value) (s : pystr) :
  ne_str v s = false <-> v = VStr s.
Proof.
  destruct v; simpl; split; try congruence.
  - intros H. apply negb_false_iff in H. apply pystr_eqb_eq in H. congruence.
  - intros H. injection H as ->. apply negb_false_iff. now apply pystr_eqb_eq.
Qed.

Lemma passed_to_model_app (tr1 tr2 : list event) :
  passed_to_model (tr1 ++ tr2) = passed_to_model tr1 ++ passed_to_model tr2.
Proof.
  induction tr1 as [|ev tr1 IH]; simpl; [reflexivity|].
  destruct ev; simpl; now rewrite IH.
Qed.

Lemma is_Exception_index0 (o : value) (e : exn) :
  index0 o = Raise e -> is_Exception e = true.
Proof.
  destruct o as [| | | |[|]|[|]|]; simpl; intros H; inversion H; reflexivity.
Qed.

Lemma is_Exception_subscript (o : value) (k : pystr) (e : exn) :
  subscript o k = Raise e -> is_Exception e = true.
Proof.
  destruct o as [| | | | | |d]; simpl; try (intros H; inversion H; reflexivity).
  destruct (lookup k d); intros H; inversion H; reflexivity.
Qed.

(** ** [summarize_article], branch by branch *)

Lemma too_short_absent_or_short (t : option pystr) :
  too_short (body_text t) = Ok (word_count t <? 40)%nat.
Proof.
  destruct t as [[|c s]|]; reflexivity.
Qed.

Lemma summarize_article_short (w : World) (t : option pystr) (st : State) :
  (word_count t < 40)%nat ->
  summarize_article w (body_text t) st = (Ok (VStr insufficient_content), st).
Proof.
  intros Hlt. unfold summarize_article, bind, lift.
  rewrite too_short_absent_or_short.
  apply Nat.ltb_lt in Hlt. rewrite Hlt. reflexivity.
Qed.

Lemma summarize_article_long (w : World) (s : pystr) (st : State) :
  (40 <= List.length (split s))%nat ->
  summarize_article w (VStr s) st =
  (summarizer <- get_summarizer w ;;
   try_except (model_call summarizer (VStr (slice_to 3000 s)))
     (ret (VStr processing_limits))) st.
Proof.
  intros Hge.
  assert (Hshort : too_short (VStr s) = Ok false).
  { change (VStr s) with (body_text (Some s)).
    rewrite too_short_absent_or_short. simpl word_count.
    apply Nat.ltb_ge in Hge. now rewrite Hge. }
  unfold summarize_article, bind at 1, lift at 1.
  rewrite Hshort. reflexivity.
Qed.

(** ** [get_summarizer] *)

Lemma get_summarizer_cached (w : World) (st : State) (h : Summarizer) :
  _summarizer st = Some h -> get_summarizer w st = (Ok h, st).
Proof.
  intros Hc. unfold get_summarizer. py_unfold. now rewrite Hc.
Qed.

Lemma get_summarizer_built (w : World) (st : State) (h : Summarizer) :
  _summarizer st = None ->
  pipeline w (trace st) (lit "summarization") (lit "facebook/bart-large-cnn")
    (lit "pt") = Ok h ->
  get_summarizer w st =
  (Ok h, {| _summarizer := Some h; trace := trace st ++ [model_pipeline] |}).
Proof.
  intros Hc Hp. unfold get_summarizer. py_unfold. rewrite Hc, Hp. reflexivity.
Qed.

Lemma get_summarizer_failed (w : World) (st : State) (e : exn) :
  _summarizer st = None ->
  pipeline w (trace st) (lit "summarization") (lit "facebook/bart-large-cnn")
    (lit "pt") = Raise e ->
  get_summarizer w st = (Raise e, record model_pipeline st).
Proof.
  intros Hc Hp. destruct st as [c tr]. simpl in *. subst c.
  unfold get_summarizer. py_unfold. simpl. now rewrite Hp.
Qed.

(** Whatever happens, [get_summarizer] hands no text to the model, and a
    handle it returns is the one the module keeps from then on. *)
Lemma get_summarizer_effect (w : World) (st : State) :
  exists pre,
    trace (snd (get_summarizer w st)) = trace st ++ pre
    /\ passed_to_model pre = []
    /\ (pre = [] \/ pre = [model_pipeline])
    /\ (forall h, fst (get_summarizer w st) = Ok h ->
        _summarizer (snd (get_summarizer w st)) = Some h
        /\ (pre = [] -> _summarizer st = Some h)).
Proof.
  destruct (_summarizer st) as [h|] eqn:Hc.
  - exists []. rewrite (get_summarizer_cached w st _ Hc). simpl.
    rewrite app_nil_r.
    split; [reflexivity|]. split; [reflexivity|]. split; [now left|].
    intros h' Hh. injection Hh as <-. split; [assumption | now intros _].
  - exists [model_pipeline].
    destruct (pipeline w (trace st) (lit "summarization")
                (lit "facebook/bart-large-cnn") (lit "pt")) as [h|e] eqn:Hp.
    + rewrite (get_summarizer_built w st _ Hc Hp). simpl.
      split; [reflexivity|]. split; [reflexivity|]. split; [now right|].
      intros h' Hh. injection Hh as <-. split; [reflexivity | discriminate].
    + rewrite (get_summarizer_failed w st _ Hc Hp). simpl.
      split; [reflexivity|]. split; [reflexivity|]. split; [now right|].
      intros h' Hh. discriminate.
Qed.

Lemma get_summarizer_available (w : World) (st : State) :
  model_available w st ->
  exists h st',
    get_summarizer w st = (Ok h, st')
    /\ _summarizer st' = Some h /\ catchable h.
Proof.
  unfold model_available. intros Hav.
  destruct (_summarizer st) as [h|] eqn:Hc.
  - exists h, st. now rewrite (get_summarizer_cached w st _ Hc).
  - destruct (Hav (trace st)) as (h & Hp & Hcatch).
    exists h. eexists. rewrite (get_summarizer_built w st _ Hc Hp).
    repeat split; auto.
Qed.

(** ** The [try] block *)

Lemma model_call_effect (h : Summarizer) (text : value) (st : State) :
  snd (model_call h text st)
  = {| _summarizer := _summarizer st;
       trace := trace st ++ [EvSummarize text 120 40 false] |}.
Proof.
  unfold model_call. py_unfold.
  destruct (call h (trace st) text 120 40 false) as [summary|e]; simpl;
    [|reflexivity].
  destruct (index0 summary); reflexivity.
Qed.

Lemma model_call_exception (h : Summarizer) (text : value) (st : State) (e : exn) :
  catchable h ->
  fst (model_call h text st) = Raise e -> is_Exception e = true.
Proof.
  intros Hcatch. unfold model_call. py_unfold.
  destruct (call h (trace st) text 120 40 false) as [summary|e'] eqn:Hcall; simpl.
  - destruct (index0 summary) as [first|e'] eqn:Hidx; simpl.
    + apply is_Exception_subscript.
    + intros H. injection H as <-. eapply is_Exception_index0; eauto.
  - intros H. injection H as <-. eapply Hcatch; eauto.
Qed.

(** The [try] statement of [summarize_article] from a state [st]. *)
Lemma guarded_call (h : Summarizer) (text : value) (st : State) :
  catchable h ->
  let st' := snd (model_call h text st) in
  (forall v, fst (model_call h text st) = Ok v ->
     try_except (model_call h text) (ret (VStr processing_limits)) st
     = (Ok v, st'))
  /\ (forall e, fst (model_call h text st) = Raise e ->
     try_except (model_call h text) (ret (VStr processing_limits)) st
     = (Ok (VStr processing_limits), st')).
Proof.
  intros Hcatch st'. subst st'.
  pose proof (model_call_exception h text st) as Hexn.
  unfold try_except, ret.
  destruct (model_call h text st) as [[v|e] st1]; simpl in *; split;
    intros x Hx; try discriminate.
  - now injection Hx as ->.
  - rewrite (Hexn e Hcatch eq_refl). reflexivity.
Qed.

Lemma summarize_article_available (w : World) (t : option pystr) (st : State) :
  model_available w st ->
  exists v st',
    summarize_article w (body_text t) st = (Ok v, st')
    /\ model_available w st'.
Proof.
  intros Hav.
  destruct (Nat.lt_ge_cases (word_count t) 40) as [Hlt|Hge].
  - exists (VStr insufficient_content), st.
    now rewrite summarize_article_short.
  - destruct t as [s|]; [|simpl in Hge; lia].
    simpl in Hge. simpl body_text. rewrite summarize_article_long by assumption.
    destruct (get_summarizer_available w st Hav) as (h & st1 & Hget & Hc & Hcatch).
    unfold bind at 1. rewrite Hget.
    destruct (guarded_call h (VStr (slice_to 3000 s)) st1 Hcatch) as [Hok Hraise].
    assert (Hav' : model_available w
                     (snd (model_call h (VStr (slice_to 3000 s)) st1))).
    { rewrite model_call_effect. unfold model_available. simpl.
      now rewrite Hc. }
    destruct (fst (model_call h (VStr (slice_to 3000 s)) st1)) as [v|e] eqn:Hres.
    + eexists. eexists. split; [apply Hok; reflexivity | exact Hav'].
    + eexists. eexists. split; [eapply Hraise; reflexivity | exact Hav'].
Qed.

Lemma guarded_call_effect (h : Summarizer) (text : value) (st : State) :
  snd (try_except (model_call h text) (ret (VStr processing_limits)) st)
  = {| _summarizer := _summarizer st;
       trace := trace st ++ [EvSummarize text 120 40 false] |}.
Proof.
  pose proof (model_call_effect h text st) as Heff.
  unfold try_except, ret.
  destruct (model_call h text st) as [[v|e] st']; simpl in *; subst st';
    [reflexivity|].
  destruct (is_Exception e); reflexivity.
Qed.

(** ** [fetch_articles] *)

Lemma fetch_articles_transport_error
    (m : Module) (w : World) (query : pystr) (n : Z) (st : State) (e : exn) :
  requests_get w (trace st) (search_url m w query n) 10 = Raise e ->
  is_Exception e = true ->
  fetch_articles m w query n st = (Ok [], record (search_request m w query n) st).
Proof.
  intros Hget He. unfold fetch_articles, http_get, bind, try_except, ret.
  rewrite Hget, He. reflexivity.
Qed.

Lemma fetch_articles_unparseable
    (m : Module) (w : World) (query : pystr) (n : Z) (st : State)
    (resp : Response) (e : exn) :
  requests_get w (trace st) (search_url m w query n) 10 = Ok resp ->
  json resp = Raise e ->
  is_Exception e = true ->
  fetch_articles m w query n st = (Ok [], record (search_request m w query n) st).
Proof.
  intros Hget Hjson He. unfold fetch_articles, http_get, bind, try_except, ret, lift.
  rewrite Hget, Hjson, He. reflexivity.
Qed.

Lemma fetch_articles_parsed
    (m : Module) (w : World) (query : pystr) (n : Z) (st : State)
    (resp : Response) (data : value) :
  requests_get w (trace st) (search_url m w query n) 10 = Ok resp ->
  json resp = Ok data ->
  fetch_articles m w query n st
  = (decode data, record (search_request m w query n) st).
Proof.
  intros Hget Hjson. unfold fetch_articles, http_get, bind, try_except, ret, lift.
  rewrite Hget, Hjson. unfold decode, rbind.
  destruct (get data (lit "status")) as [status|e]; [|reflexivity].
  destruct (ne_str status (lit "ok")); [reflexivity|].
  destruct (get_default data (lit "articles") (VList [])) as [raw|e]; [|reflexivity].
  destruct (iterate raw); reflexivity.
Qed.

(** The request is sent once, and the module global is not touched. *)
Lemma fetch_articles_effect
    (m : Module) (w : World) (query : pystr) (n : Z) (st : State) :
  snd (fetch_articles m w query n st) = record (search_request m w query n) st.
Proof.
  destruct (requests_get w (trace st) (search_url m w query n) 10)
    as [resp|e] eqn:Hget.
  - destruct (json resp) as [data|e] eqn:Hjson.
    + now rewrite (fetch_articles_parsed m w query n st resp data).
    + unfold fetch_articles, http_get, bind, try_except, ret, lift.
      rewrite Hget, Hjson. destruct (is_Exception e); reflexivity.
  - unfold fetch_articles, http_get, bind, try_except, ret, lift.
    rewrite Hget. destruct (is_Exception e); reflexivity.
Qed.

Lemma decode_not_ok (d : dict) :
  lookup (lit "status") d <> Some (VStr (lit "ok")) ->
  decode (VDict d) = Ok [].
Proof.
  intros Hne. unfold decode, get, get_default, rbind.
  destruct (ne_str _ (lit "ok")) eqn:Hs; [reflexivity|].
  apply ne_str_false in Hs.
  destruct (lookup (lit "status") d) as [v|]; [|discriminate].
  congruence.
Qed.

Lemma decode_ok (d : dict) :
  lookup (lit "status") d = Some (VStr (lit "ok")) ->
  decode (VDict d)
  = (items <~ iterate (match lookup (lit "articles") d with
                       | Some raw => raw
                       | None => VList []
                       end) ;;
     normalize_loop items []).
Proof.
  intros Hs. unfold decode, get, get_default. simpl rbind at 1.
  rewrite Hs. reflexivity.
Qed.

(** ** The two loops *)

Lemma normalize_loop_spec (items : list value) :
  forall acc arts,
    normalize_loop items acc = Ok arts <->
    exists new, arts = acc ++ new
                /\ Forall2 (fun a art => normalize a = Ok art) items new.
Proof.
  induction items as [|a rest IH]; intros acc arts; simpl.
  - split.
    + intros H. injection H as <-. exists []. rewrite app_nil_r. auto.
    + intros (new & -> & HF). inversion HF. now rewrite app_nil_r.
  - unfold rbind at 1. destruct (normalize a) as [art|e] eqn:Hn.
    + rewrite IH. split.
      * intros (new & -> & HF). exists (art :: new).
        rewrite <- app_assoc. split; [reflexivity|]. now constructor.
      * intros (new & -> & HF). inversion HF as [|? art' ? new' Ha HF']; subst.
        exists new'. rewrite <- app_assoc. simpl.
        split; [congruence | assumption].
    + split; [discriminate|].
      intros (new & _ & HF). inversion HF; congruence.
Qed.

Lemma digest_loop_entries (w : World) (articles : list Article.t) :
  forall acc st digest st',
    digest_loop w articles acc st = (Ok digest, st') ->
    exists new, digest = acc ++ new /\ Forall2 (entry_for w) articles new.
Proof.
  induction articles as [|art rest IH]; intros acc st digest st'; simpl.
  - unfold ret. intros H. injection H as <- _. exists [].
    rewrite app_nil_r. auto.
  - unfold bind at 1.
    destruct (summarize_article w (Article.text art) st) as [[summary|e] st1];
      [|discriminate].
    intros H. apply IH in H as (new & -> & HF).
    eexists. rewrite <- app_assoc. simpl. split; [reflexivity|].
    constructor; [|exact HF]. unfold entry_for. simpl. auto.
Qed.

Lemma str_or_none_body_text (v : value) :
  str_or_none v = true -> exists t, v = body_text t.
Proof.
  destruct v; try discriminate; intros _.
  - now exists None.
  - now exists (Some s).
Qed.

Lemma digest_loop_available (w : World) (articles : list Article.t) :
  Forall (fun art => str_or_none (Article.text art) = true) articles ->
  forall acc st,
    model_available w st ->
    exists digest st', digest_loop w articles acc st = (Ok digest, st').
Proof.
  induction 1 as [|art rest Htext _ IH]; intros acc st Hav; simpl.
  - now exists acc, st.
  - apply str_or_none_body_text in Htext as [t ->].
    destruct (summarize_article_available w t st Hav) as (v & st1 & Hsum & Hav1).
    unfold bind at 1. rewrite Hsum. now apply IH.
Qed.

Lemma generate_news_digest_unfold (m : Module) (w : World) (query : pystr)
    (st : State) :
  generate_news_digest m w query st
  = match fst (fetch_articles m w query (MAX_ARTICLES m) st) with
    | Ok articles =>
        digest_loop w articles []
          (record (search_request m w query (MAX_ARTICLES m)) st)
    | Raise e =>
        (Raise e, record (search_request m w query (MAX_ARTICLES m)) st)
    end.
Proof.
  unfold generate_news_digest, bind.
  rewrite <- fetch_articles_effect.
  destruct (fetch_articles m w query (MAX_ARTICLES m) st) as [[arts|e] st1];
    reflexivity.
Qed.

Lemma Forall2_map_eq {A B C} (R : A -> B -> Prop) (f : B -> C) (g : A -> C)
    (la : list A) (lb : list B) :
  (forall a b, R a b -> f b = g a) ->
  Forall2 R la lb -> map f lb = map g la.
Proof.
  intros HR. induction 1 as [|a b la lb Hab _ IH]; simpl; [reflexivity|].
  now rewrite (HR a b Hab), IH.
Qed.

Lemma generate_news_digest_entries (m : Module) (w : World) (query : pystr)
    (st : State) (digest : list Entry.t) (st' : State) :
  generate_news_digest m w query st = (Ok digest, st') ->
  exists articles,
    fst (fetch_articles m w query (MAX_ARTICLES m) st) = Ok articles
    /\ Forall2 (entry_for w) articles digest.
Proof.
  rewrite generate_news_digest_unfold.
  destruct (fst (fetch_articles m w query (MAX_ARTICLES m) st)) as [arts|e];
    [|discriminate].
  intros Hloop. apply digest_loop_entries in Hloop as (new & -> & HF).
  now exists arts.
Qed.

(** ** Normalization *)

Lemma normalize_provider_article (a : value) :
  is_provider_article a = true ->
  exists art, normalize a = Ok art /\ str_or_none (Article.text art) = true.
Proof.
  destruct a as [| | | | | |d]; try discriminate. simpl.
  intros H. apply andb_true_iff in H as [H Hsrc].
  apply andb_true_iff in H as [H Hts].
  apply andb_true_iff in H as [Hdesc Hcont].
  unfold normalize, get, get_default, field in *. simpl rbind.
  assert (Hdate : exists dt,
             slice_value 10
               (py_or match lookup (lit "publishedAt") d with
                      | Some v => v
                      | None => VNone
                      end (VStr [])) = Ok dt).
  { destruct (lookup (lit "publishedAt") d) as [[| | | |[|c ts]| |]|];
      try discriminate; eexists; reflexivity. }
  destruct Hdate as [dt ->].
  assert (Hsource : exists nm,
             match match lookup (lit "source") d with
                   | Some v => v
                   | None => VDict []
                   end with
             | VDict d0 => Ok match lookup (lit "name") d0 with
                              | Some v => v
                              | None => VNone
                              end
             | _ => Raise AttributeError
             end = Ok nm).
  { destruct (lookup (lit "source") d) as [[| | | | | |src]|];
      try discriminate; eexists; reflexivity. }
  destruct Hsource as [nm ->]. simpl rbind.
  destruct (truthy match lookup (lit "description") d with
                   | Some v => v
                   | None => VNone
                   end); simpl; eexists; (split; [reflexivity|]); simpl;
    assumption.
Qed.

Lemma normalize_loop_provider_articles (items : list value) :
  Forall (fun a => is_provider_article a = true) items ->
  exists articles,
    Forall2 (fun a art => normalize a = Ok art) items articles
    /\ Forall (fun art => str_or_none (Article.text art) = true) articles.
Proof.
  induction 1 as [|a rest Ha _ (arts & HF & Htexts)].
  - exists []. split; constructor.
  - destruct (normalize_provider_article a Ha) as (art & Hn & Ht).
    exists (art :: arts). split; constructor; assumption.
Qed.

(** ** The guard of [summarize_article] *)

Lemma too_short_brief (text : value) :
  brief text = true -> too_short text = Ok true.
Proof.
  unfold brief, too_short.
  destruct text as [| | | |[|c s]| |]; simpl; intros H;
    try (rewrite H; reflexivity); reflexivity.
Qed.

Lemma too_short_false (text : value) :
  too_short text = Ok false ->
  exists s, text = VStr s /\ (40 <= List.length (split s))%nat.
Proof.
  unfold too_short.
  destruct (truthy text) eqn:Htruthy; simpl; [|discriminate].
  destruct text; simpl; try discriminate.
  intros H. injection H as H. apply Nat.ltb_ge in H. now exists s.
Qed.

(** ** One step of the digest loop, in any world *)

Lemma model_event_ok_invocation (s : pystr) :
  model_event_ok (EvSummarize (VStr (slice_to 3000 s)) 120 40 false) = true.
Proof.
  unfold model_event_ok. rewrite !andb_true_r.
  apply Nat.leb_le. unfold slice_to. rewrite length_firstn. lia.
Qed.

Lemma model_input_long (s : pystr) :
  (40 <= List.length (split s))%nat ->
  model_input (VStr s) = [VStr (slice_to 3000 s)].
Proof.
  intros Hge. unfold model_input. apply Nat.ltb_ge in Hge. now rewrite Hge.
Qed.

Lemma model_input_too_short (text : value) :
  too_short text = Ok true -> model_input text = [].
Proof.
  unfold too_short, model_input.
  destruct text as [| | | |s| |]; try reflexivity.
  destruct s as [|c s]; [reflexivity|]. simpl.
  intros H. injection H as H. now rewrite H.
Qed.

(** One call of [summarize_article], whatever the world and the text. *)
Lemma summarize_article_step (w : World) (text : value) (st : State) :
  exists new,
    trace (snd (summarize_article w text st)) = trace st ++ new
    /\ Forall (fun ev => model_event_ok ev = true) new
    /\ (forall h, _summarizer st = Some h ->
        _summarizer (snd (summarize_article w text st)) = Some h)
    /\ (built new <= to_build st)%nat
    /\ (forall v, fst (summarize_article w text st) = Ok v ->
        (built new + to_build (snd (summarize_article w text st)))%nat
        = to_build st
        /\ passed_to_model new = model_input text).
Proof.
  destruct (too_short text) as [[|]|e] eqn:Hshort.
  - exists []. unfold summarize_article, bind, lift. rewrite Hshort. simpl.
    rewrite app_nil_r. repeat split; auto; try (unfold built; simpl; lia).
    symmetry. now apply model_input_too_short.
  - apply too_short_false in Hshort as (s & -> & Hge).
    rewrite (model_input_long s Hge).
    pose proof (model_event_ok_invocation s) as Hok.
    pose proof (summarize_article_long w s st Hge) as Hrun.
    unfold bind at 1 in Hrun.
    destruct (_summarizer st) as [h|] eqn:Hc.
    + rewrite (get_summarizer_cached w st h Hc) in Hrun. rewrite Hrun.
      exists [EvSummarize (VStr (slice_to 3000 s)) 120 40 false].
      rewrite guarded_call_effect. unfold to_build. simpl. rewrite Hc.
      repeat split; auto; intros; congruence.
    + destruct (pipeline w (trace st) (lit "summarization")
                  (lit "facebook/bart-large-cnn") (lit "pt")) as [h|e] eqn:Hp.
      * rewrite (get_summarizer_built w st h Hc Hp) in Hrun. rewrite Hrun.
        exists [model_pipeline; EvSummarize (VStr (slice_to 3000 s)) 120 40 false].
        rewrite guarded_call_effect. unfold to_build. simpl. rewrite Hc.
        rewrite <- app_assoc. repeat split; auto; intros; discriminate.
      * rewrite (get_summarizer_failed w st e Hc Hp) in Hrun. rewrite Hrun.
        exists [model_pipeline]. unfold to_build. simpl. rewrite Hc.
        repeat split; auto; try discriminate.
  - exists []. unfold summarize_article, bind, lift. rewrite Hshort. simpl.
    rewrite app_nil_r. repeat split; auto; try (unfold built; simpl; lia); discriminate.
Qed.

Lemma built_app (tr1 tr2 : list event) :
  built (tr1 ++ tr2) = (built tr1 + built tr2)%nat.
Proof.
  unfold built. now rewrite filter_app, length_app.
Qed.

(** The loop of [generate_news_digest], whatever the world and the
    articles. *)
Lemma digest_loop_step (w : World) (articles : list Article.t) :
  forall acc st,
  exists new,
    trace (snd (digest_loop w articles acc st)) = trace st ++ new
    /\ Forall (fun ev => model_event_ok ev = true) new
    /\ (forall h, _summarizer st = Some h ->
        _summarizer (snd (digest_loop w articles acc st)) = Some h)
    /\ (built new <= to_build st)%nat
    /\ (forall digest, fst (digest_loop w articles acc st) = Ok digest ->
        passed_to_model new = model_inputs articles).
Proof.
  induction articles as [|art rest IH]; intros acc st.
  - exists []. simpl. rewrite app_nil_r. repeat split; auto.
    unfold built; simpl; lia.
  - simpl digest_loop. unfold bind at 1 2 3.
    destruct (summarize_article_step w (Article.text art) st)
      as (new1 & Htr1 & Hok1 & Hkeep1 & Hbuilt1 & Hret1).
    destruct (summarize_article w (Article.text art) st)
      as [[summary|e] st1]; simpl in Htr1, Hkeep1, Hret1.
    + destruct (Hret1 summary eq_refl) as [Hleft Hpassed].
      match goal with
      | |- context [digest_loop w rest ?acc' st1] =>
          destruct (IH acc' st1) as (new2 & Htr2 & Hok2 & Hkeep2 & Hbuilt2 & Hret2)
      end.
      exists (new1 ++ new2). rewrite Htr2, Htr1, app_assoc.
      split; [reflexivity|]. split; [now apply Forall_app|].
      split; [intros h Hh; apply Hkeep2; now apply Hkeep1|].
      split; [rewrite built_app; lia|].
      intros digest Hd. simpl model_inputs.
      rewrite passed_to_model_app, Hpassed. f_equal. eapply Hret2; eauto.
    + exists new1. simpl. repeat split; auto. discriminate.
Qed.

Lemma digest_loop_digested (w : World) (articles : list Article.t) :
  forall acc st digest st',
    digest_loop w articles acc st = (Ok digest, st') ->
    exists new, digest = acc ++ new /\ digested w st articles new st'.
Proof.
  induction articles as [|art rest IH]; intros acc st digest st'; simpl.
  - unfold ret. intros H. injection H as <- <-. exists [].
    rewrite app_nil_r. split; [reflexivity | constructor].
  - unfold bind at 1.
    destruct (summarize_article w (Article.text art) st)
      as [[summary|e] st1] eqn:Hsum; [|discriminate].
    intros H. apply IH in H as (new & -> & Hrest).
    eexists. rewrite <- app_assoc. simpl. split; [reflexivity|].
    econstructor; eassumption.
Qed.

(** [fetch_articles] once the request is answered: the result is read off
    the body, and the status code of the response is not looked at. *)
Lemma fetch_articles_by_body
    (m : Module) (w : World) (query : pystr) (n : Z) (st : State)
    (resp : Response) :
  requests_get w (trace st) (search_url m w query n) 10 = Ok resp ->
  fetch_articles m w query n st
  = (match json resp with
     | Ok data => decode data
     | Raise e => if is_Exception e then Ok [] else Raise e
     end,
     record (search_request m w query n) st).
Proof.
  intros Hget. destruct (json resp) as [data|e] eqn:Hjson.
  - now apply (fetch_articles_parsed m w query n st resp data).
  - unfold fetch_articles, http_get, bind, try_except, ret, lift.
    rewrite Hget, Hjson. destruct (is_Exception e); reflexivity.
Qed.

(** * The claims *)

(** C4. An article whose body text is absent ([None]) or empty, or counts
    fewer than 40 whitespace-separated words, gets the fixed
    insufficient-content placeholder, and the state is left as it was: the
    model is neither built nor invoked. With 40 words or more that branch
    is not taken: the next thing the function does is ask for the model. *)
Theorem summarize_article_insufficient_content
    (w : World) (t : option pystr) (st : State) :
  ((word_count t < 40)%nat ->
   summarize_article w (body_text t) st = (Ok (VStr insufficient_content), st))
  /\ ((40 <= word_count t)%nat ->
      exists ev evs,
        trace (snd (summarize_article w (body_text t) st)) = trace st ++ ev :: evs
        /\ is_model_event ev = true).
Proof.
  split.
  - apply summarize_article_short.
  - intros Hge. destruct t as [s|]; [|simpl in Hge; lia].
    simpl in Hge. simpl body_text.
    rewrite summarize_article_long by assumption.
    destruct (get_summarizer_effect w st) as (pre & Htr & _ & Hpre & Hh).
    unfold bind at 1.
    destruct (get_summarizer w st) as [[h|e] st1] eqn:Hget; simpl in Htr, Hh.
    + destruct (Hh h eq_refl) as [_ Hcached].
      assert (Hsnd := guarded_call_effect h (VStr (slice_to 3000 s)) st1).
      apply (f_equal trace) in Hsnd. simpl in Hsnd.
      rewrite Hsnd, Htr.
      destruct Hpre as [-> | ->].
      * rewrite app_nil_r. eexists. exists []. split; reflexivity.
      * rewrite <- app_assoc. simpl. eexists. eexists. split; reflexivity.
    + simpl. rewrite Htr.
      destruct Hpre as [-> | ->].
      * destruct (_summarizer st) as [h|] eqn:Hc.
        -- rewrite (get_summarizer_cached w st _ Hc) in Hget. discriminate.
        -- destruct (pipeline w (trace st) (lit "summarization")
                       (lit "facebook/bart-large-cnn") (lit "pt")) as [h|e'] eqn:Hp.
           ++ rewrite (get_summarizer_built w st _ Hc Hp) in Hget. discriminate.
           ++ rewrite (get_summarizer_failed w st _ Hc Hp) in Hget.
              injection Hget as _ <-. simpl in Htr.
              apply (f_equal (@List.length event)) in Htr.
              rewrite !length_app in Htr. simpl in Htr. lia.
      * eexists. exists []. split; reflexivity.
Qed.

(** The spec's scenario: the ten-word description is answered without the
    model, the 45-word one is not. *)
Lemma summarize_article_insufficient_content_witness :
  summarize_article ev_world (body_text (Some (words 10))) initial_state
  = (Ok (VStr insufficient_content), initial_state)
  /\ exists ev evs,
       trace (snd (summarize_article ev_world (body_text (Some (words 45)))
                     initial_state))
       = trace initial_state ++ ev :: evs
       /\ is_model_event ev = true.
Proof.
  split.
  - apply (summarize_article_insufficient_content ev_world (Some (words 10))
             initial_state).
    vm_compute. lia.
  - apply (summarize_article_insufficient_content ev_world (Some (words 45))
             initial_state).
    vm_compute. lia.
Defined.

(** C5. When the body text has at least 40 words and the model handle is
    obtained, exactly one text is handed to the model, the slice
    [text[:3000]]: for a text of 3000 characters or more it is the prefix
    of length 3000, for a shorter text it is the text itself. *)
Theorem summarize_article_truncates
    (w : World) (s : pystr) (st : State) (h : Summarizer) :
  (40 <= List.length (split s))%nat ->
  fst (get_summarizer w st) = Ok h ->
  passed_to_model (trace (snd (summarize_article w (VStr s) st)))
  = passed_to_model (trace st) ++ [VStr (slice_to 3000 s)]
  /\ ((3000 <= List.length s)%nat ->
      List.length (slice_to 3000 s) = 3000%nat
      /\ exists rest, s = slice_to 3000 s ++ rest)
  /\ ((List.length s <= 3000)%nat -> slice_to 3000 s = s).
Proof.
  intros Hge Hget. split; [|split].
  - rewrite summarize_article_long by assumption.
    destruct (get_summarizer_effect w st) as (pre & Htr & Hnone & _ & _).
    unfold bind at 1.
    destruct (get_summarizer w st) as [[h'|e] st1]; simpl in Hget, Htr;
      [|discriminate].
    rewrite guarded_call_effect. simpl.
    rewrite Htr, !passed_to_model_app, Hnone, app_nil_r. reflexivity.
  - intros Hlen. unfold slice_to. split.
    + rewrite length_firstn. lia.
    + exists (skipn 3000 s). symmetry. apply firstn_skipn.
  - intros Hlen. unfold slice_to. now apply firstn_all2.
Qed.

(** A text of 700 words, 3500 characters, in a world whose model loads. *)
Lemma summarize_article_truncates_witness :
  passed_to_model
    (trace (snd (summarize_article ev_world (VStr (words 700)) initial_state)))
  = passed_to_model (trace initial_state) ++ [VStr (slice_to 3000 (words 700))]
  /\ ((3000 <= List.length (words 700))%nat ->
      List.length (slice_to 3000 (words 700)) = 3000%nat
      /\ exists rest, words 700 = slice_to 3000 (words 700) ++ rest)
  /\ ((List.length (words 700) <= 3000)%nat ->
      slice_to 3000 (words 700) = words 700).
Proof.
  apply (summarize_article_truncates ev_world (words 700) initial_state bart).
  - vm_compute. lia.
  - reflexivity.
Defined.

(** C1, as the code has it. [get_summarizer] is called before the [try]
    statement, so the claim holds once the model handle is there or can
    be built, and the model's failures derive from [Exception]:
    [summarize_article] then returns a value for every text that is
    absent or a string; whatever the [try] block raises, from the model or
    from reading [summary[0]["summary_text"]], is answered by the
    processing-limits placeholder; and [generate_news_digest] returns a
    digest for every fetched list of such articles. *)
Theorem summarize_article_recovers (w : World) (st : State) :
  model_available w st ->
  (forall t, exists v st', summarize_article w (body_text t) st = (Ok v, st'))
  /\ (forall s h e,
        (40 <= List.length (split s))%nat ->
        fst (get_summarizer w st) = Ok h ->
        fst (model_call h (VStr (slice_to 3000 s)) (snd (get_summarizer w st)))
        = Raise e ->
        fst (summarize_article w (VStr s) st) = Ok (VStr processing_limits))
  /\ (forall m query articles,
        fst (fetch_articles m w query (MAX_ARTICLES m) st) = Ok articles ->
        Forall (fun art => str_or_none (Article.text art) = true) articles ->
        exists digest, fst (generate_news_digest m w query st) = Ok digest).
Proof.
  intros Hav. split; [|split].
  - intros t.
    destruct (summarize_article_available w t st Hav) as (v & st' & Hsum & _).
    now exists v, st'.
  - intros s h e Hge Hget Hcall.
    rewrite summarize_article_long by assumption.
    destruct (get_summarizer_available w st Hav) as (h' & st1 & Hget' & _ & Hcatch).
    rewrite Hget' in Hget, Hcall. simpl in Hget, Hcall. injection Hget as ->.
    unfold bind at 1. rewrite Hget'.
    destruct (guarded_call h (VStr (slice_to 3000 s)) st1 Hcatch) as [_ Hraise].
    now rewrite (Hraise e Hcall).
  - intros m query articles Hfetch Htexts.
    rewrite generate_news_digest_unfold, Hfetch.
    destruct (digest_loop_available w articles Htexts []
                (record (search_request m w query (MAX_ARTICLES m)) st))
      as (digest & st' & Hloop).
    + exact Hav.
    + exists digest. now rewrite Hloop.
Qed.

(** A model that loads and then fails on every text: each long article
    gets the placeholder and the digest is still produced. *)
Lemma summarize_article_recovers_witness :
  fst (summarize_article exhausted_world (VStr (words 45)) initial_state)
  = Ok (VStr processing_limits)
  /\ exists digest,
       fst (generate_news_digest loaded exhausted_world (lit "electric vehicles")
              initial_state) = Ok digest.
Proof.
  assert (Hav : model_available exhausted_world initial_state).
  { intros tr. exists exhausted. split; [reflexivity|].
    intros tr' text a b c e H. inversion H. reflexivity. }
  destruct (summarize_article_recovers exhausted_world initial_state Hav)
    as (_ & Hcall & Hdigest).
  split.
  - apply (Hcall (words 45) exhausted (LibraryException (lit "IndexError")));
      [vm_compute; lia | reflexivity | reflexivity].
  - eapply (Hdigest loaded (lit "electric vehicles")).
    + vm_compute. reflexivity.
    + repeat constructor.
Defined.

(** C1 as stated fails: when the model cannot be built, the exception of
    [get_summarizer] leaves [summarize_article], and the digest with it. *)
Lemma summarize_article_propagates_load_failure :
  fst (summarize_article no_model_world (VStr (words 45)) initial_state)
  = Raise (LibraryException (lit "OSError"))
  /\ is_Exception (LibraryException (lit "OSError")) = true
  /\ fst (generate_news_digest loaded no_model_world (lit "electric vehicles")
            initial_state)
     = Raise (LibraryException (lit "OSError")).
Proof.
  repeat split; vm_compute; reflexivity.
Qed.

(** C2, as the code has it. The status code is never read. A response
    that is not 200 yields the empty list, after the one request, when
    its body is not JSON, or is an object whose [status] is not ["ok"],
    or is an ["ok"] object without articles; and whatever its body, the
    result is the one a response with the same body and any other status
    code gets, 200 included. *)
Theorem fetch_articles_non_200
    (m : Module) (w : World) (query : pystr) (n : Z) (st : State)
    (resp : Response) :
  requests_get w (trace st) (search_url m w query n) 10 = Ok resp ->
  status_code resp <> 200%Z ->
  ((exists e, json resp = Raise e /\ is_Exception e = true)
   \/ (exists d, json resp = Ok (VDict d)
                 /\ lookup (lit "status") d <> Some (VStr (lit "ok")))
   \/ (exists d, json resp = Ok (VDict d)
                 /\ lookup (lit "status") d = Some (VStr (lit "ok"))
                 /\ (lookup (lit "articles") d = None
                     \/ lookup (lit "articles") d = Some (VList []))) ->
   fetch_articles m w query n st
   = (Ok [], record (search_request m w query n) st))
  /\ (forall w' resp',
        requests_get w' (trace st) (search_url m w' query n) 10 = Ok resp' ->
        json resp' = json resp ->
        fetch_articles m w' query n st
        = (fst (fetch_articles m w query n st),
           record (search_request m w' query n) st)).
Proof.
  intros Hget _. split.
  - intros [(e & Hjson & He) | [(d & Hjson & Hstatus) | (d & Hjson & Hstatus & Harts)]].
    + now apply (fetch_articles_unparseable m w query n st resp e).
    + rewrite (fetch_articles_parsed m w query n st resp (VDict d)) by assumption.
      now rewrite decode_not_ok.
    + rewrite (fetch_articles_parsed m w query n st resp (VDict d)) by assumption.
      rewrite decode_ok by assumption.
      destruct Harts as [-> | ->]; reflexivity.
  - intros w' resp' Hget' Hsame.
    rewrite (fetch_articles_by_body m w' query n st resp' Hget').
    rewrite (fetch_articles_by_body m w query n st resp Hget).
    now rewrite Hsame.
Qed.

(** A refusal sent with status 429 gives the empty list, as the same
    refusal sent with status 200 does. *)
Lemma fetch_articles_non_200_witness :
  fetch_articles loaded rate_limited_world (lit "electric vehicles") 5 initial_state
  = (Ok [],
     record (search_request loaded rate_limited_world (lit "electric vehicles") 5)
       initial_state)
  /\ fetch_articles loaded refused_200_world (lit "electric vehicles") 5
       initial_state
     = (fst (fetch_articles loaded rate_limited_world (lit "electric vehicles") 5
               initial_state),
        record (search_request loaded refused_200_world (lit "electric vehicles") 5)
          initial_state).
Proof.
  destruct (fetch_articles_non_200 loaded rate_limited_world
              (lit "electric vehicles") 5 initial_state
              {| status_code := 429; json := Ok provider_error |})
    as [Hempty Hsame].
  - reflexivity.
  - simpl. lia.
  - split.
    + apply Hempty. right. left. eexists. split; [reflexivity|].
      vm_compute. discriminate.
    + apply (Hsame refused_200_world
               {| status_code := 200; json := Ok provider_error |});
        reflexivity.
Defined.

(** C2 as stated fails: a 500 response whose body reads as a success is
    taken at its word. *)
Lemma fetch_articles_ignores_status_code :
  requests_get error_500_world (trace initial_state)
    (search_url loaded error_500_world (lit "electric vehicles") 5) 10
  = Ok {| status_code := 500; json := Ok (provider_body [raw_brief]) |}
  /\ exists art,
       fst (fetch_articles loaded error_500_world (lit "electric vehicles") 5
              initial_state) = Ok [art].
Proof.
  split; [reflexivity|]. eexists. vm_compute. reflexivity.
Qed.

(** C3. A transport error, a body that is not JSON, a body whose [status]
    is not ["ok"] (whatever the HTTP status code) and a body without
    articles all make [fetch_articles] return the empty list, and
    [generate_news_digest] with it; nothing is raised. *)
Theorem fetch_articles_no_results
    (m : Module) (w : World) (query : pystr) (n : Z) (st : State) :
  no_results (requests_get w (trace st) (search_url m w query n) 10) ->
  fetch_articles m w query n st
  = (Ok [], record (search_request m w query n) st)
  /\ (n = MAX_ARTICLES m ->
      generate_news_digest m w query st
      = (Ok [], record (search_request m w query n) st)).
Proof.
  intros Hno.
  assert (Hfetch : fetch_articles m w query n st
                   = (Ok [], record (search_request m w query n) st)).
  { inversion Hno as [e He Hget | code e He Hget | code d Hs Hget
                      | code d Hs Harts Hget]; symmetry in Hget.
    - now apply (fetch_articles_transport_error m w query n st e).
    - now apply (fetch_articles_unparseable m w query n st _ e Hget).
    - rewrite (fetch_articles_parsed m w query n st _ (VDict d) Hget eq_refl).
      now rewrite decode_not_ok.
    - rewrite (fetch_articles_parsed m w query n st _ (VDict d) Hget eq_refl).
      rewrite decode_ok by assumption.
      destruct Harts as [-> | ->]; reflexivity. }
  split; [exact Hfetch|].
  intros ->. rewrite generate_news_digest_unfold, Hfetch. reflexivity.
Qed.

Lemma fetch_articles_no_results_witness :
  fetch_articles loaded rate_limited_world (lit "electric vehicles") 5
    initial_state
  = (Ok [],
     record (search_request loaded rate_limited_world (lit "electric vehicles") 5)
       initial_state)
  /\ generate_news_digest loaded rate_limited_world (lit "electric vehicles")
       initial_state
     = (Ok [],
        record (search_request loaded rate_limited_world
                  (lit "electric vehicles") 5) initial_state).
Proof.
  destruct (fetch_articles_no_results loaded rate_limited_world
              (lit "electric vehicles") 5 initial_state) as [Hfetch Hdigest].
  - apply (provider_failure 429). vm_compute. discriminate.
  - split; [exact Hfetch | apply Hdigest; reflexivity].
Defined.

(** C6. In a returned digest the [why_it_matters] of each entry is
    [explain_importance] of the title of its article and of nothing else;
    for a title [T] that is a string the sentence is the fixed text around
    [T]. *)
Theorem why_it_matters_is_template
    (m : Module) (w : World) (query : pystr) (st : State)
    (digest : list Entry.t) (st' : State) :
  generate_news_digest m w query st = (Ok digest, st') ->
  (exists articles,
     fst (fetch_articles m w query (MAX_ARTICLES m) st) = Ok articles
     /\ map Entry.why_it_matters digest
        = map (fun art => VStr (explain_importance w (Article.title art)))
            articles)
  /\ Forall (fun e => Entry.why_it_matters e
                      = VStr (explain_importance w (Entry.title e))) digest
  /\ (forall T,
        explain_importance w (VStr T)
        = lit "This development around '" ++ T
          ++ lit "' may influence public opinion, market trends, or upcoming decisions related to this topic.").
Proof.
  intros Hrun.
  apply generate_news_digest_entries in Hrun as (articles & Hfetch & HF).
  split; [|split].
  - exists articles. split; [assumption|].
    apply (Forall2_map_eq (entry_for w)); [|assumption].
    intros art e (_ & _ & _ & _ & Hwhy). exact Hwhy.
  - clear Hfetch. induction HF as [|art e arts es Hent _ IH]; constructor;
      [|assumption].
    destruct Hent as (Htitle & _ & _ & _ & Hwhy). now rewrite Hwhy, Htitle.
  - intros T. reflexivity.
Qed.

Lemma why_it_matters_is_template_witness :
  exists digest st',
    generate_news_digest loaded ev_world (lit "electric vehicles") initial_state
    = (Ok digest, st')
    /\ map Entry.why_it_matters digest
       = [ VStr (lit "This development around 'Charging networks expand' may influence public opinion, market trends, or upcoming decisions related to this topic.");
           VStr (lit "This development around 'Battery recall' may influence public opinion, market trends, or upcoming decisions related to this topic.");
           VStr (lit "This development around 'Solid-state cells' may influence public opinion, market trends, or upcoming decisions related to this topic.") ].
Proof.
  destruct (generate_news_digest loaded ev_world (lit "electric vehicles")
              initial_state) as [[digest|e] st'] eqn:Hrun;
    [|vm_compute in Hrun; discriminate].
  exists digest, st'. split; [reflexivity|].
  destruct (why_it_matters_is_template loaded ev_world
              (lit "electric vehicles") initial_state digest st' Hrun)
    as ((articles & Hfetch & Hmap) & _ & _).
  rewrite Hmap. vm_compute in Hfetch. injection Hfetch as <-.
  vm_compute. reflexivity.
Defined.

(** C7. A returned digest has one entry per article that
    [fetch_articles] returned, in the same order, and each entry carries
    the title, source, date and url of its article. *)
Theorem digest_follows_articles
    (m : Module) (w : World) (query : pystr) (st : State)
    (digest : list Entry.t) (st' : State) :
  generate_news_digest m w query st = (Ok digest, st') ->
  exists articles,
    fst (fetch_articles m w query (MAX_ARTICLES m) st) = Ok articles
    /\ List.length digest = List.length articles
    /\ map Entry.title digest = map Article.title articles
    /\ map Entry.source digest = map Article.source articles
    /\ map Entry.date digest = map Article.date articles
    /\ map Entry.url digest = map Article.url articles.
Proof.
  intros Hrun.
  apply generate_news_digest_entries in Hrun as (articles & Hfetch & HF).
  exists articles. split; [assumption|]. split.
  - symmetry. exact (Forall2_length HF).
  - repeat split; apply (Forall2_map_eq (entry_for w)); try assumption;
      intros art e (Ht & Hs & Hd & Hu & _); assumption.
Qed.

Lemma digest_follows_articles_witness :
  exists digest st',
    generate_news_digest loaded ev_world (lit "electric vehicles") initial_state
    = (Ok digest, st')
    /\ List.length digest = 3%nat
    /\ map Entry.date digest
       = [ VStr (lit "2025-10-03"); VStr (lit "2025-10-02"); VStr (lit "2025-10-01") ].
Proof.
  destruct (generate_news_digest loaded ev_world (lit "electric vehicles")
              initial_state) as [[digest|e] st'] eqn:Hrun;
    [|vm_compute in Hrun; discriminate].
  exists digest, st'. split; [reflexivity|].
  destruct (digest_follows_articles loaded ev_world
              (lit "electric vehicles") initial_state digest st' Hrun)
    as (articles & Hfetch & Hlen & _ & _ & Hdate & _).
  rewrite Hlen, Hdate. vm_compute in Hfetch. injection Hfetch as <-.
  split; vm_compute; reflexivity.
Defined.

(** C8. For a raw result with a [source] object and a [publishedAt]
    string: the body text is [description] when that is a non-empty
    string, and [content] when [description] is missing, null or empty;
    the date is the first 10 characters of [publishedAt]; title,
    [source.name] and url are copied. *)
Theorem normalize_fields (d src : dict) (published : pystr) :
  lookup (lit "source") d = Some (VDict src) ->
  lookup (lit "publishedAt") d = Some (VStr published) ->
  exists art,
    normalize (VDict d) = Ok art
    /\ (forall s, lookup (lit "description") d = Some (VStr s) -> s <> [] ->
        Article.text art = VStr s)
    /\ (lookup (lit "description") d = None
        \/ lookup (lit "description") d = Some VNone
        \/ lookup (lit "description") d = Some (VStr []) ->
        Article.text art = field d (lit "content"))
    /\ Article.date art = VStr (slice_to 10 published)
    /\ Article.title art = field d (lit "title")
    /\ Article.source art = field src (lit "name")
    /\ Article.url art = field d (lit "url").
Proof.
  intros Hsrc Hts.
  assert (Hdate : slice_value 10 (py_or (VStr published) (VStr []))
                  = Ok (VStr (slice_to 10 published))).
  { destruct published; reflexivity. }
  unfold normalize, get, get_default, field. simpl rbind.
  rewrite Hsrc, Hts, Hdate. simpl rbind.
  destruct (lookup (lit "description") d) as [desc|] eqn:Hdesc.
  - destruct (truthy desc) eqn:Htruthy; simpl; eexists;
      (split; [reflexivity|]); simpl; repeat split; auto.
    + intros s Hs _. congruence.
    + intros [H | [H | H]]; try discriminate; injection H as ->; discriminate.
    + intros s Hs Hnil. injection Hs as ->. destruct s; [congruence|discriminate].
  - simpl. eexists. split; [reflexivity|]. simpl. repeat split; auto.
    intros s Hs. discriminate.
Qed.

Lemma normalize_fields_witness :
  exists art,
    normalize raw_long = Ok art
    /\ Article.text art = VStr (words 700)
    /\ Article.date art = VStr (lit "2025-10-01")
    /\ Article.title art = VStr (lit "Solid-state cells")
    /\ Article.source art = VStr (lit "TechCrunch")
    /\ Article.url art = VStr (lit "https://example.com/cells").
Proof.
  destruct (normalize_fields
              [ (lit "source",
                 VDict [ (lit "id", VNone); (lit "name", VStr (lit "TechCrunch")) ]);
                (lit "author", VNone);
                (lit "title", VStr (lit "Solid-state cells"));
                (lit "description", VNone);
                (lit "url", VStr (lit "https://example.com/cells"));
                (lit "publishedAt", VStr (lit "2025-10-01T06:00:00Z"));
                (lit "content", VStr (words 700)) ]
              [ (lit "id", VNone); (lit "name", VStr (lit "TechCrunch")) ]
              (lit "2025-10-01T06:00:00Z") eq_refl eq_refl)
    as (art & Hn & _ & Hcontent & Hdate & Htitle & Hsource & Hurl).
  exists art. split; [exact Hn|].
  split; [apply Hcontent; right; left; reflexivity|].
  repeat split; assumption.
Defined.

(** C9. When [os.getenv] finds no [NEWS_API_KEY], or an empty one, the
    import raises [RuntimeError]; a process that imports the module and
    asks for a digest ends with that exception, having asked nothing of
    the provider or of the model. *)
Theorem missing_key_is_fatal (w : World) :
  lookup (lit "NEWS_API_KEY") (environment w) = None
  \/ lookup (lit "NEWS_API_KEY") (environment w) = Some [] ->
  load_module w = Raise (RuntimeError key_not_found)
  /\ forall query,
       run w query = (Raise (RuntimeError key_not_found), initial_state)
       /\ trace (snd (run w query)) = [].
Proof.
  intros Hkey.
  assert (Hload : load_module w = Raise (RuntimeError key_not_found)).
  { unfold load_module, os_getenv. fold (environment w).
    destruct Hkey as [-> | ->]; reflexivity. }
  split; [exact Hload|].
  intros query. unfold run. rewrite Hload. split; reflexivity.
Qed.

Lemma missing_key_is_fatal_witness :
  load_module no_key_world = Raise (RuntimeError key_not_found)
  /\ forall query,
       run no_key_world query = (Raise (RuntimeError key_not_found), initial_state)
       /\ trace (snd (run no_key_world query)) = [].
Proof.
  apply (missing_key_is_fatal no_key_world). left. reflexivity.
Defined.

(** C10. [max_results] reaches the provider as the [pageSize] of the one
    request and is used nowhere else: however many well-formed results
    the body lists, each is normalized; each goes through
    [summarize_article], in order, and its entry carries what that call
    returned; the model is invoked for every one of them that has 40
    words or more; and each has its entry in the digest. *)
Theorem no_client_side_truncation
    (m : Module) (w : World) (query : pystr) (n : Z) (st : State)
    (resp : Response) (d : dict) (raw : list value) :
  requests_get w (trace st) (search_url m w query n) 10 = Ok resp ->
  json resp = Ok (VDict d) ->
  lookup (lit "status") d = Some (VStr (lit "ok")) ->
  lookup (lit "articles") d = Some (VList raw) ->
  Forall (fun a => is_provider_article a = true) raw ->
  model_available w st ->
  exists articles,
    fetch_articles m w query n st
    = (Ok articles,
       record (EvGet (lit "https://newsapi.org/v2/everything?q=" ++ query
                      ++ lit "&pageSize=" ++ str_of_int n
                      ++ lit "&language=en&apiKey="
                      ++ py_str (py_repr w) (API_KEY m)) 10) st)
    /\ Forall2 (fun a art => normalize a = Ok art) raw articles
    /\ List.length articles = List.length raw
    /\ (n = MAX_ARTICLES m ->
        exists digest st',
          generate_news_digest m w query st = (Ok digest, st')
          /\ Forall2 (entry_for w) articles digest
          /\ List.length digest = List.length raw
          /\ digested w (record (search_request m w query n) st)
               articles digest st'
          /\ passed_to_model (trace st')
             = passed_to_model (trace st) ++ model_inputs articles).
Proof.
  intros Hget Hjson Hstatus Hraw Hshape Hav.
  destruct (normalize_loop_provider_articles raw Hshape)
    as (articles & Hnorm & Htexts).
  assert (Hfetch : fetch_articles m w query n st
                   = (Ok articles, record (search_request m w query n) st)).
  { rewrite (fetch_articles_parsed m w query n st resp (VDict d) Hget Hjson).
    rewrite decode_ok by assumption. rewrite Hraw. simpl.
    f_equal. apply normalize_loop_spec. now exists articles. }
  exists articles. split; [exact Hfetch|]. split; [exact Hnorm|].
  pose proof (Forall2_length Hnorm) as Hlen. split; [now symmetry|].
  intros ->.
  destruct (digest_loop_available w articles Htexts []
              (record (search_request m w query (MAX_ARTICLES m)) st) Hav)
    as (digest & st' & Hloop).
  exists digest, st'.
  rewrite generate_news_digest_unfold, Hfetch. simpl fst.
  split; [exact Hloop|].
  destruct (digest_loop_step w articles []
              (record (search_request m w query (MAX_ARTICLES m)) st))
    as (new & Htr & _ & _ & _ & Hpassed).
  rewrite Hloop in Htr, Hpassed. simpl in Htr, Hpassed.
  pose proof (digest_loop_digested w articles [] _ digest st' Hloop)
    as (entries & Hentries & Hdigested).
  apply digest_loop_entries in Hloop as (new' & -> & HF).
  simpl in Hentries. subst entries. simpl.
  split; [exact HF|].
  split; [rewrite <- (Forall2_length HF); now symmetry|].
  split; [exact Hdigested|].
  rewrite Htr, !passed_to_model_app, (Hpassed _ eq_refl). simpl.
  now rewrite app_nil_r.
Qed.

(** Six results for [pageSize=5]: six articles, six entries, and the
    sixth, of 700 words, is summarized by the model like the others. *)
Lemma no_client_side_truncation_witness :
  MAX_ARTICLES loaded = 5%Z
  /\ exists digest st',
       generate_news_digest loaded overfull_world (lit "electric vehicles")
         initial_state = (Ok digest, st')
       /\ List.length digest = 6%nat
       /\ passed_to_model (trace st')
          = [ VStr (words 45); VStr (slice_to 3000 (words 700));
              VStr (words 45); VStr (slice_to 3000 (words 700)) ]
       /\ map Entry.summary digest
          = [ VStr (lit "A generated summary."); VStr insufficient_content;
              VStr (lit "A generated summary."); VStr insufficient_content;
              VStr (lit "A generated summary."); VStr (lit "A generated summary.") ].
Proof.
  split; [reflexivity|].
  destruct (no_client_side_truncation loaded overfull_world
              (lit "electric vehicles") 5 initial_state
              {| status_code := 200;
                 json := Ok (provider_body
                               [raw_charging; raw_brief; raw_long;
                                raw_brief; raw_charging; raw_long]) |}
              [ (lit "status", VStr (lit "ok"));
                (lit "totalResults", VInt 6);
                (lit "articles",
                 VList [raw_charging; raw_brief; raw_long;
                        raw_brief; raw_charging; raw_long]) ]
              [raw_charging; raw_brief; raw_long;
               raw_brief; raw_charging; raw_long])
    as (articles & Hfetch & _ & _ & Hdigest).
  - reflexivity.
  - reflexivity.
  - reflexivity.
  - reflexivity.
  - repeat constructor.
  - intros tr. exists bart. split; [reflexivity|].
    intros tr' text a b c e H. discriminate H.
  - destruct (Hdigest eq_refl) as (digest & st' & Hrun & _ & Hlen & _ & Hpassed).
    exists digest, st'. split; [exact Hrun|]. split; [exact Hlen|].
    split.
    + rewrite Hpassed. vm_compute in Hfetch. injection Hfetch as <-.
      vm_compute. reflexivity.
    + vm_compute in Hrun. injection Hrun as <- _. vm_compute. reflexivity.
Defined.

(** * Further properties of [pipeline.py] *)

(** ** Module load *)

(** X1. The import succeeds exactly when [os.getenv] finds a non-empty
    [NEWS_API_KEY]; the globals are then that key and [MAX_ARTICLES = 5]. *)
Theorem load_module_succeeds_iff (w : World) (m : Module) :
  load_module w = Ok m <->
  exists key,
    lookup (lit "NEWS_API_KEY") (environment w) = Some key
    /\ key <> []
    /\ m = {| API_KEY := VStr key; MAX_ARTICLES := 5 |}.
Proof.
  unfold load_module, os_getenv. fold (environment w).
  destruct (lookup (lit "NEWS_API_KEY") (environment w)) as [[|c key]|];
    simpl; split.
  - discriminate.
  - intros (key & Hkey & Hne & _). injection Hkey as <-. congruence.
  - intros H. injection H as <-. exists (c :: key).
    repeat split. discriminate.
  - intros (key' & Hkey & _ & ->). injection Hkey as <-. reflexivity.
  - discriminate.
  - intros (key & Hkey & _). discriminate.
Qed.

(** ** [summarize_article] *)

(** X2. The guard on objects that are not strings: one that is false
    ([0], [False], [[]], [{}], [None]) gets the insufficient-content
    placeholder like a short string; one that is true raises
    [AttributeError] from [text.split()]. Either way the state is left
    as it was. *)
Theorem summarize_article_not_a_string (w : World) (text : value) (st : State) :
  (forall s, text <> VStr s) ->
  summarize_article w text st
  = (if truthy text then Raise AttributeError
     else Ok (VStr insufficient_content), st).
Proof.
  intros Hns. unfold summarize_article, bind, lift, too_short.
  destruct text; simpl; try reflexivity.
  - destruct b; reflexivity.
  - destruct (Z.eqb z 0); reflexivity.
  - destruct (PrimFloat.eqb f PrimFloat.zero); reflexivity.
  - now contradiction (Hns s).
  - destruct l; reflexivity.
  - destruct d; reflexivity.
Qed.

Lemma summarize_article_not_a_string_witness :
  summarize_article no_model_world (VInt 7) initial_state
  = (Raise AttributeError, initial_state)
  /\ summarize_article no_model_world (VList []) initial_state
     = (Ok (VStr insufficient_content), initial_state).
Proof.
  split.
  - apply (summarize_article_not_a_string no_model_world (VInt 7) initial_state).
    intros s H. discriminate H.
  - apply (summarize_article_not_a_string no_model_world (VList []) initial_state).
    intros s H. discriminate H.
Defined.

(** X3. The summary that comes back: when the handle is obtained and the
    model answers with a list whose first item is an object, the text
    under its [summary_text] is returned as it is, and the rest of the
    answer is ignored. *)
Theorem summarize_article_returns_summary_text
    (w : World) (s : pystr) (st : State) (h : Summarizer)
    (first : dict) (others : list value) (summary_text : value) :
  (40 <= List.length (split s))%nat ->
  fst (get_summarizer w st) = Ok h ->
  call h (trace (snd (get_summarizer w st))) (VStr (slice_to 3000 s)) 120 40 false
  = Ok (VList (VDict first :: others)) ->
  lookup (lit "summary_text") first = Some summary_text ->
  fst (summarize_article w (VStr s) st) = Ok summary_text.
Proof.
  intros Hge Hget Hcall Hfield.
  rewrite summarize_article_long by assumption.
  unfold bind at 1.
  destruct (get_summarizer w st) as [[h'|e] st1]; simpl in Hget, Hcall;
    [|discriminate].
  injection Hget as ->.
  unfold try_except, model_call, invoke, bind, lift.
  rewrite Hcall. simpl. now rewrite Hfield.
Qed.

Lemma summarize_article_returns_summary_text_witness :
  fst (summarize_article ev_world (VStr (words 45)) initial_state)
  = Ok (VStr (lit "A generated summary.")).
Proof.
  apply (summarize_article_returns_summary_text ev_world (words 45)
           initial_state bart
           [ (lit "summary_text", VStr (lit "A generated summary.")) ] []).
  - vm_compute. lia.
  - reflexivity.
  - reflexivity.
  - reflexivity.
Defined.

(** ** What one digest asks of the model *)

(** X4. What one digest asks of the world, whatever the world answers,
    and whether the digest is returned or an exception leaves: one HTTP
    request, first; after it only calls to the model, each one the fixed
    construction or an invocation on a string of at most 3000 characters
    with [max_length=120], [min_length=40], [do_sample=False]; the model
    is built at most once, and not at all when the handle is cached, which
    then stays the cached one. *)
Theorem generate_news_digest_calls
    (m : Module) (w : World) (user_query : pystr) (st : State) :
  exists new,
    trace (snd (generate_news_digest m w user_query st))
    = trace st ++ search_request m w user_query (MAX_ARTICLES m) :: new
    /\ Forall (fun ev => model_event_ok ev = true) new
    /\ (built new <= 1)%nat
    /\ (forall h, _summarizer st = Some h ->
        built new = 0%nat
        /\ _summarizer (snd (generate_news_digest m w user_query st)) = Some h).
Proof.
  rewrite generate_news_digest_unfold.
  destruct (fst (fetch_articles m w user_query (MAX_ARTICLES m) st))
    as [articles|e].
  - destruct (digest_loop_step w articles []
                (record (search_request m w user_query (MAX_ARTICLES m)) st))
      as (new & Htr & Hok & Hkeep & Hbuilt & _).
    exists new. rewrite Htr. unfold record at 1. simpl trace.
    rewrite <- app_assoc. split; [reflexivity|]. split; [exact Hok|].
    unfold to_build, record in Hbuilt. simpl in Hbuilt.
    split; [destruct (_summarizer st); lia|].
    intros h Hc. rewrite Hc in Hbuilt. split; [lia|].
    apply Hkeep. exact Hc.
  - exists []. simpl. repeat split; auto.
Qed.

(** X5. In a returned digest the model was invoked once for each article
    whose text is a string of 40 words or more, in the order of the
    articles, on [text[:3000]], and for no other article. *)
Theorem generate_news_digest_model_inputs
    (m : Module) (w : World) (user_query : pystr) (st : State)
    (digest : list Entry.t) (st' : State) :
  generate_news_digest m w user_query st = (Ok digest, st') ->
  exists articles,
    fst (fetch_articles m w user_query (MAX_ARTICLES m) st) = Ok articles
    /\ passed_to_model (trace st')
       = passed_to_model (trace st) ++ model_inputs articles.
Proof.
  rewrite generate_news_digest_unfold.
  destruct (fst (fetch_articles m w user_query (MAX_ARTICLES m) st))
    as [articles|e]; [|discriminate].
  intros Hloop. exists articles. split; [reflexivity|].
  destruct (digest_loop_step w articles []
              (record (search_request m w user_query (MAX_ARTICLES m)) st))
    as (new & Htr & _ & _ & _ & Hpassed).
  rewrite Hloop in Htr, Hpassed. simpl in Htr, Hpassed.
  rewrite Htr, !passed_to_model_app, (Hpassed digest eq_refl). simpl.
  now rewrite app_nil_r.
Qed.

Lemma generate_news_digest_model_inputs_witness :
  exists digest st',
    generate_news_digest loaded ev_world (lit "electric vehicles") initial_state
    = (Ok digest, st')
    /\ passed_to_model (trace st')
       = [VStr (words 45); VStr (slice_to 3000 (words 700))].
Proof.
  destruct (generate_news_digest loaded ev_world (lit "electric vehicles")
              initial_state) as [[digest|e] st'] eqn:Hrun;
    [|vm_compute in Hrun; discriminate].
  exists digest, st'. split; [reflexivity|].
  destruct (generate_news_digest_model_inputs loaded ev_world
              (lit "electric vehicles") initial_state digest st' Hrun)
    as (articles & Hfetch & Hpassed).
  rewrite Hpassed. vm_compute in Hfetch. injection Hfetch as <-.
  vm_compute. reflexivity.
Defined.

Lemma digest_loop_brief (w : World) (articles : list Article.t) :
  Forall (fun art => brief (Article.text art) = true) articles ->
  forall acc st,
    digest_loop w articles acc st
    = (Ok (acc ++ map (placeholder_entry w) articles), st).
Proof.
  induction 1 as [|art rest Hbrief _ IH]; intros acc st; simpl.
  - now rewrite app_nil_r.
  - unfold bind at 1. unfold summarize_article, bind, lift.
    rewrite (too_short_brief _ Hbrief). unfold ret.
    rewrite IH, <- app_assoc. reflexivity.
Qed.

(** X6. When every fetched article has a text that is missing, false or
    shorter than 40 words, the digest is returned with the
    insufficient-content placeholder in every entry and the model is
    never touched: the only call made is the HTTP request. This holds in
    every world, also one where the model cannot be built. *)
Theorem generate_news_digest_without_model
    (m : Module) (w : World) (user_query : pystr) (st : State)
    (articles : list Article.t) :
  fst (fetch_articles m w user_query (MAX_ARTICLES m) st) = Ok articles ->
  Forall (fun art => brief (Article.text art) = true) articles ->
  generate_news_digest m w user_query st
  = (Ok (map (placeholder_entry w) articles),
     record (search_request m w user_query (MAX_ARTICLES m)) st).
Proof.
  intros Hfetch Hbrief.
  rewrite generate_news_digest_unfold, Hfetch.
  now rewrite (digest_loop_brief w articles Hbrief).
Qed.

Lemma generate_news_digest_without_model_witness :
  exists articles,
    List.length articles = 2%nat
    /\ generate_news_digest loaded brief_world (lit "recalls") initial_state
       = (Ok (map (placeholder_entry brief_world) articles),
          record (search_request loaded brief_world (lit "recalls") 5)
            initial_state).
Proof.
  destruct (fst (fetch_articles loaded brief_world (lit "recalls")
                   (MAX_ARTICLES loaded) initial_state))
    as [articles|e] eqn:Hfetch; [|vm_compute in Hfetch; discriminate].
  exists articles. split.
  - vm_compute in Hfetch. injection Hfetch as <-. reflexivity.
  - apply (generate_news_digest_without_model loaded brief_world
             (lit "recalls") initial_state articles Hfetch).
    vm_compute in Hfetch. injection Hfetch as <-.
    repeat constructor.
Defined.

(** ** Results that are not shaped as expected *)

(** The loop body on an object: only [source] and [publishedAt] can make
    it fail. *)
Lemma normalize_object (d : dict) :
  normalize (VDict d)
  = (source <~ get (match lookup (lit "source") d with
                    | Some src => src
                    | None => VDict []
                    end) (lit "name") ;;
     date <~ slice_value 10 (py_or (field d (lit "publishedAt")) (VStr [])) ;;
     Ok {| Article.title := field d (lit "title");
           Article.text := py_or (field d (lit "description"))
                             (field d (lit "content"));
           Article.source := source;
           Article.date := date;
           Article.url := field d (lit "url") |}).
Proof.
  unfold normalize, get, get_default, field, py_or. simpl rbind.
  destruct (truthy match lookup (lit "description") d with
                   | Some v => v
                   | None => VNone
                   end); reflexivity.
Qed.

Lemma source_name_cases (d : dict) :
  if match lookup (lit "source") d with
     | Some (VDict _) | None => true
     | Some _ => false
     end
  then exists name,
         get (match lookup (lit "source") d with
              | Some src => src
              | None => VDict []
              end) (lit "name") = Ok name
  else get (match lookup (lit "source") d with
            | Some src => src
            | None => VDict []
            end) (lit "name") = Raise AttributeError.
Proof.
  destruct (lookup (lit "source") d) as [[| | | | | |src]|];
    try reflexivity; eexists; reflexivity.
Qed.

Lemma date_cases (published : value) :
  if negb (truthy published)
     || match published with
        | VStr _ | VList _ => true
        | _ => false
        end
  then exists date, slice_value 10 (py_or published (VStr [])) = Ok date
  else slice_value 10 (py_or published (VStr [])) = Raise TypeError
       \/ slice_value 10 (py_or published (VStr [])) = Raise DictSliceError.
Proof.
  unfold py_or.
  destruct published as [|[|]|z|f|[|c s]|[|x l]|[|kv d]]; simpl;
    try (left; reflexivity); try (right; reflexivity);
    try (eexists; reflexivity).
  - destruct (Z.eqb z 0); simpl; [eexists | left]; reflexivity.
  - destruct (PrimFloat.eqb f PrimFloat.zero); simpl; [eexists | left];
      reflexivity.
Qed.

Lemma normalize_cases (a : value) :
  ((exists art, normalize a = Ok art) <-> normalizable a = true)
  /\ (normalizable a = false ->
      normalize a = Raise AttributeError
      \/ normalize a = Raise TypeError
      \/ normalize a = Raise DictSliceError).
Proof.
  destruct a as [| | | | | |d];
    try (split; [split; [intros [art H]; discriminate H | discriminate]
                | intros _; left; reflexivity]).
  rewrite normalize_object. unfold normalizable.
  pose proof (source_name_cases d) as Hsource.
  pose proof (date_cases (field d (lit "publishedAt"))) as Hdate.
  destruct (match lookup (lit "source") d with
            | Some (VDict _) | None => true
            | Some _ => false
            end).
  - destruct Hsource as [name ->]. simpl rbind. simpl andb.
    destruct (negb (truthy (field d (lit "publishedAt")))
              || match field d (lit "publishedAt") with
                 | VStr _ | VList _ => true
                 | _ => false
                 end).
    + destruct Hdate as [date ->]. simpl.
      split; [split; [reflexivity | intros _; eexists; reflexivity]
             | discriminate].
    + destruct Hdate as [-> | ->]; simpl;
        (split; [split; [intros [art H]; discriminate H | discriminate]
                | intros _; tauto]).
  - rewrite Hsource. simpl.
    split; [split; [intros [art H]; discriminate H | discriminate]
           | intros _; now left].
Qed.

(** X7. When the loop body of [fetch_articles] fails. A raw result is
    turned into an article exactly when it is an object whose [source] is
    missing or an object and whose [publishedAt] is false, a string or a
    list; every other result raises [AttributeError], [TypeError] or,
    for a [publishedAt] that is a non-empty object, the error its
    interpreter has for slicing a [dict] ([TypeError] up to Python 3.11,
    [KeyError] from 3.12 on). Nothing else about the result matters: any
    field may be missing or of any type. *)
Theorem normalize_succeeds_iff (a : value) :
  ((exists art, normalize a = Ok art) <-> normalizable a = true)
  /\ (normalizable a = false ->
      normalize a = Raise AttributeError
      \/ normalize a = Raise TypeError
      \/ normalize a = Raise DictSliceError)
  /\ (forall d src published,
        a = VDict d ->
        lookup (lit "source") d = Some (VDict src) ->
        lookup (lit "publishedAt") d = Some (VDict published) ->
        published <> [] ->
        normalize a = Raise DictSliceError).
Proof.
  split; [exact (proj1 (normalize_cases a))|].
  split; [exact (proj2 (normalize_cases a))|].
  intros d src published -> Hsrc Hpub Hne.
  rewrite normalize_object. unfold get, get_default, field, py_or.
  rewrite Hsrc, Hpub. destruct published as [|kv rest]; [congruence|].
  reflexivity.
Qed.

(** X8. A result with nothing in it is kept, not dropped: for an object
    without [source] whose [publishedAt] is missing, null or empty, the
    article has source [None] and the empty string as date, and every
    other field that is missing is [None]. *)
Theorem normalize_defaults (d : dict) :
  lookup (lit "source") d = None ->
  lookup (lit "publishedAt") d = None
  \/ lookup (lit "publishedAt") d = Some VNone
  \/ lookup (lit "publishedAt") d = Some (VStr []) ->
  normalize (VDict d)
  = Ok {| Article.title := field d (lit "title");
          Article.text := py_or (field d (lit "description"))
                            (field d (lit "content"));
          Article.source := VNone;
          Article.date := VStr [];
          Article.url := field d (lit "url") |}
  /\ (lookup (lit "title") d = None -> field d (lit "title") = VNone)
  /\ (lookup (lit "url") d = None -> field d (lit "url") = VNone)
  /\ (lookup (lit "description") d = None -> lookup (lit "content") d = None ->
      py_or (field d (lit "description")) (field d (lit "content")) = VNone).
Proof.
  intros Hsrc Hts. rewrite normalize_object, Hsrc. unfold field.
  split; [|split; [|split]].
  - destruct Hts as [-> | [-> | ->]]; reflexivity.
  - now intros ->.
  - now intros ->.
  - now intros -> ->.
Qed.

Lemma normalize_defaults_witness :
  normalize (VDict [])
  = Ok {| Article.title := VNone; Article.text := VNone;
          Article.source := VNone; Article.date := VStr [];
          Article.url := VNone |}.
Proof.
  destruct (normalize_defaults [] eq_refl (or_introl eq_refl)) as [Hn _].
  exact Hn.
Defined.

Lemma normalize_raises (a : value) (e : exn) :
  normalize a = Raise e ->
  e = AttributeError \/ e = TypeError \/ e = DictSliceError.
Proof.
  intros Hn. destruct (normalize_cases a) as [Hiff Hbad].
  destruct (normalizable a).
  - destruct (proj2 Hiff eq_refl) as [art Hart]. congruence.
  - destruct (Hbad eq_refl) as [H | [H | H]]; rewrite H in Hn;
      injection Hn as <-; auto.
Qed.

Lemma normalize_loop_raises (items : list value) :
  forall acc e,
    normalize_loop items acc = Raise e ->
    e = AttributeError \/ e = TypeError \/ e = DictSliceError.
Proof.
  induction items as [|a rest IH]; intros acc e; simpl; [discriminate|].
  unfold rbind at 1. destruct (normalize a) as [art|e'] eqn:Hn.
  - apply IH.
  - intros H. injection H as <-. now apply (normalize_raises a).
Qed.

Lemma normalize_loop_bad (items : list value) :
  Exists (fun a => normalizable a = false) items ->
  forall acc, exists e,
    normalize_loop items acc = Raise e
    /\ (e = AttributeError \/ e = TypeError \/ e = DictSliceError).
Proof.
  induction 1 as [a rest Hbad | a rest _ IH]; intros acc; simpl;
    unfold rbind at 1.
  - destruct (proj2 (normalize_cases a) Hbad) as [-> | [-> | ->]];
      eexists; split; try reflexivity; auto.
  - destruct (normalize a) as [art|e] eqn:Hn.
    + apply IH.
    + exists e. split; [reflexivity|]. now apply (normalize_raises a).
Qed.

Lemma normalize_loop_good (items : list value) :
  Forall (fun a => normalizable a = true) items ->
  exists articles, Forall2 (fun a art => normalize a = Ok art) items articles.
Proof.
  induction 1 as [|a rest Ha _ [arts HF]].
  - exists []. constructor.
  - destruct (proj2 (proj1 (normalize_cases a)) Ha) as [art Hart].
    exists (art :: arts). now constructor.
Qed.

(** X9. One result that cannot be normalized loses them all: when the
    body is a success whose articles are a list, [fetch_articles] returns
    one article per result if every result can be normalized, and
    otherwise raises [AttributeError], [TypeError] or the interpreter's
    error for slicing a [dict], which nothing in [generate_news_digest]
    catches; the results before and after the bad
    one are lost with it, and the model is not touched. *)
Theorem fetch_articles_all_or_nothing
    (m : Module) (w : World) (query : pystr) (n : Z) (st : State)
    (resp : Response) (d : dict) (raw : list value) :
  requests_get w (trace st) (search_url m w query n) 10 = Ok resp ->
  json resp = Ok (VDict d) ->
  lookup (lit "status") d = Some (VStr (lit "ok")) ->
  lookup (lit "articles") d = Some (VList raw) ->
  (Forall (fun a => normalizable a = true) raw ->
   exists articles,
     fetch_articles m w query n st
     = (Ok articles, record (search_request m w query n) st)
     /\ List.length articles = List.length raw)
  /\ (Exists (fun a => normalizable a = false) raw ->
      exists e,
        (e = AttributeError \/ e = TypeError \/ e = DictSliceError)
        /\ fetch_articles m w query n st
           = (Raise e, record (search_request m w query n) st)
        /\ (n = MAX_ARTICLES m ->
            generate_news_digest m w query st
            = (Raise e, record (search_request m w query n) st))).
Proof.
  intros Hget Hjson Hstatus Hraw.
  assert (Hfetch : fetch_articles m w query n st
                   = (normalize_loop raw [],
                      record (search_request m w query n) st)).
  { rewrite (fetch_articles_parsed m w query n st resp (VDict d) Hget Hjson).
    rewrite decode_ok by assumption. now rewrite Hraw. }
  split.
  - intros Hgood. destruct (normalize_loop_good raw Hgood) as [articles HF].
    exists articles. rewrite Hfetch. split.
    + f_equal. apply normalize_loop_spec. now exists articles.
    + symmetry. exact (Forall2_length HF).
  - intros Hbad. destruct (normalize_loop_bad raw Hbad []) as (e & Hloop & He).
    exists e. split; [exact He|]. rewrite Hfetch, Hloop.
    split; [reflexivity|].
    intros ->. rewrite generate_news_digest_unfold, Hfetch, Hloop. reflexivity.
Qed.

Lemma fetch_articles_all_or_nothing_witness :
  exists e,
    (e = AttributeError \/ e = TypeError \/ e = DictSliceError)
    /\ generate_news_digest loaded misshapen_world (lit "electric vehicles")
         initial_state
       = (Raise e,
          record (search_request loaded misshapen_world
                    (lit "electric vehicles") 5) initial_state).
Proof.
  destruct (fetch_articles_all_or_nothing loaded misshapen_world
              (lit "electric vehicles") 5 initial_state
              {| status_code := 200;
                 json := Ok (provider_body
                               [raw_charging; raw_null_source; raw_brief]) |}
              [ (lit "status", VStr (lit "ok"));
                (lit "totalResults", VInt 3);
                (lit "articles",
                 VList [raw_charging; raw_null_source; raw_brief]) ]
              [raw_charging; raw_null_source; raw_brief]
              eq_refl eq_refl eq_refl eq_refl) as [_ Hbad].
  destruct Hbad as (e & He & _ & Hdigest).
  - apply Exists_cons_tl. apply Exists_cons_hd. reflexivity.
  - exists e. split; [exact He|]. apply Hdigest. reflexivity.
Defined.

Lemma decode_raises (data : value) (e : exn) :
  decode data = Raise e ->
  e = AttributeError \/ e = TypeError \/ e = DictSliceError.
Proof.
  unfold decode.
  destruct data as [| | | | | |d];
    try (intros H; injection H as <-; now left).
  unfold get, get_default. simpl rbind.
  destruct (ne_str _ (lit "ok")); [discriminate|].
  destruct (iterate _) as [items|e'] eqn:Hit; simpl.
  - apply normalize_loop_raises.
  - intros H. injection H as <-. right. left.
    destruct (lookup (lit "articles") d) as [[| | | | | |]|];
      simpl in Hit; congruence.
Qed.

(** X10. What [fetch_articles] can raise. No [Exception] of the request
    or of [response.json()] leaves it; what leaves is [AttributeError],
    [TypeError] or the interpreter's error for slicing a [dict]
    ([TypeError] up to Python 3.11, [KeyError] from 3.12 on), all from a
    body that is not shaped as expected, or an exception of the request
    or of the parsing that does not derive from [Exception]. *)
Theorem fetch_articles_raises
    (m : Module) (w : World) (query : pystr) (n : Z) (st : State) (e : exn) :
  fst (fetch_articles m w query n st) = Raise e ->
  e = AttributeError \/ e = TypeError \/ e = DictSliceError
  \/ (is_Exception e = false
      /\ (requests_get w (trace st) (search_url m w query n) 10 = Raise e
          \/ exists resp,
               requests_get w (trace st) (search_url m w query n) 10 = Ok resp
               /\ json resp = Raise e)).
Proof.
  destruct (requests_get w (trace st) (search_url m w query n) 10)
    as [resp|e'] eqn:Hget.
  - destruct (json resp) as [data|e'] eqn:Hjson.
    + rewrite (fetch_articles_parsed m w query n st resp data Hget Hjson).
      simpl. intros H. apply decode_raises in H. tauto.
    + destruct (is_Exception e') eqn:He.
      * now rewrite (fetch_articles_unparseable m w query n st resp e').
      * unfold fetch_articles, http_get, bind, try_except, ret, lift.
        rewrite Hget, Hjson, He. simpl. intros H. injection H as <-.
        right. right. right. split; [exact He|]. right. now exists resp.
  - destruct (is_Exception e') eqn:He.
    + now rewrite (fetch_articles_transport_error m w query n st e').
    + unfold fetch_articles, http_get, bind, try_except, ret, lift.
      rewrite Hget, He. simpl. intros H. injection H as <-.
      right. right. right. split; [exact He|]. now left.
Qed.

(** A body that is an array, one whose third result has an object as
    [publishedAt], and a request interrupted from the keyboard. *)
Lemma fetch_articles_raises_witness :
  (exists e,
     fst (fetch_articles loaded array_world (lit "electric vehicles") 5
            initial_state) = Raise e
     /\ e = AttributeError)
  /\ (exists e,
        fst (fetch_articles loaded dated_world (lit "electric vehicles") 5
               initial_state) = Raise e
        /\ e = DictSliceError)
  /\ (exists e,
        fst (fetch_articles loaded interrupted_world (lit "electric vehicles") 5
               initial_state) = Raise e
        /\ is_Exception e = false).
Proof.
  split; [|split].
  - destruct (fst (fetch_articles loaded array_world (lit "electric vehicles") 5
                     initial_state)) as [articles|e] eqn:Hfetch;
      [vm_compute in Hfetch; discriminate|].
    exists e. split; [reflexivity|].
    destruct (fetch_articles_raises loaded array_world
                (lit "electric vehicles") 5 initial_state e Hfetch)
      as [H | [H | [H | [H _]]]]; vm_compute in Hfetch;
      injection Hfetch as <-; try discriminate H; reflexivity.
  - destruct (fst (fetch_articles loaded dated_world (lit "electric vehicles") 5
                     initial_state)) as [articles|e] eqn:Hfetch;
      [vm_compute in Hfetch; discriminate|].
    exists e. split; [reflexivity|].
    destruct (fetch_articles_raises loaded dated_world
                (lit "electric vehicles") 5 initial_state e Hfetch)
      as [H | [H | [H | [H _]]]]; vm_compute in Hfetch;
      injection Hfetch as <-; try discriminate H; reflexivity.
  - destruct (fst (fetch_articles loaded interrupted_world
                     (lit "electric vehicles") 5 initial_state))
      as [articles|e] eqn:Hfetch; [vm_compute in Hfetch; discriminate|].
    exists e. split; [reflexivity|].
    destruct (fetch_articles_raises loaded interrupted_world
                (lit "electric vehicles") 5 initial_state e Hfetch)
      as [H | [H | [H | [H _]]]]; vm_compute in Hfetch;
      injection Hfetch as <-; try discriminate H; reflexivity.
Defined.

(** * Properties of [app.py] *)

(** ** What the sections of the page can show *)

Lemma header_shows_no_error (body : pystr) :
  ~ In (App.error body) App.header.
Proof.
  unfold App.header. simpl. intuition discriminate.
Qed.

Lemma footer_shows_no_error (i : App.Inputs) (body : pystr) :
  ~ In (App.error body) (App.footer i).
Proof.
  unfold App.footer. simpl. intuition discriminate.
Qed.

Lemma expanders_show_no_error (w : World) (digest : list Entry.t) :
  forall k body, ~ In (App.error body) (App.expanders w k digest).
Proof.
  induction digest as [|r rest IH]; intros k body; simpl.
  - tauto.
  - intros [H | H]; [discriminate | exact (IH _ _ H)].
Qed.

Lemma expanders_length (w : World) (digest : list Entry.t) :
  forall k, List.length (App.expanders w k digest) = List.length digest.
Proof.
  induction digest as [|r rest IH]; intros k; simpl; [reflexivity|].
  now rewrite IH.
Qed.

Lemma display_shows_no_error (w : World) (r : App.slot) (body : pystr) :
  ~ In (App.error body) (App.display w r).
Proof.
  destruct r as [| |digest]; try (simpl; tauto).
  unfold App.display.
  destruct (App.nonempty digest); [|simpl; tauto].
  cbn [negb]. intros [H | H]; [discriminate|].
  exact (expanders_show_no_error _ _ _ _ H).
Qed.

Lemma fetch_logic_shows_no_articles_never
    (m : Module) (w : World) (i : App.Inputs) (sv : App.Server) :
  ~ In (App.error App.no_articles) (fst (fst (App.fetch_logic m w i sv))).
Proof.
  unfold App.fetch_logic.
  destruct (App.get_news i); [|simpl; tauto].
  destruct (negb (truthy (VStr (strip (App.query i))))).
  - simpl. intuition discriminate.
  - destruct (App.cached_news_digest m w i (App.query i) sv) as [[digest|e] sv'].
    + simpl. intuition discriminate.
    + destruct (is_Exception e); simpl; intuition discriminate.
Qed.

Lemma script_shows_no_articles_never
    (w : World) (i : App.Inputs) (sv : App.Server) :
  ~ In (App.error App.no_articles) (fst (fst (App.script w i sv))).
Proof.
  unfold App.script.
  destruct (load_module w) as [m|e]; [|simpl; tauto].
  destruct (App.reset_app i); [apply header_shows_no_error|].
  pose proof (fetch_logic_shows_no_articles_never m w i (App.initialise sv))
    as Hfetch.
  destruct (App.fetch_logic m w i (App.initialise sv)) as [[shown sv'] [e|]];
    cbn [fst] in *; rewrite !in_app_iff; intros H.
  - destruct H as [H | H]; [exact (header_shows_no_error _ H) | tauto].
  - destruct H as [H | [H | [H | H]]].
    + exact (header_shows_no_error _ H).
    + tauto.
    + exact (display_shows_no_error _ _ _ H).
    + exact (footer_shows_no_error _ _ H).
Qed.

(** X11. The message of line 79 is dead code: no click, in no world and
    from no state of the server, puts "No articles found. Try a different
    topic." on the page. *)
Theorem app_never_says_no_articles
    (w : World) (i : App.Inputs) (sv : App.Server) :
  Forall (fun shown => shown <> App.error App.no_articles)
    (fst (fst (App.interact w i sv))).
Proof.
  apply Forall_forall. intros shown Hin ->. revert Hin.
  unfold App.interact.
  pose proof (script_shows_no_articles_never w i sv) as Hfirst.
  destruct (App.script w i sv) as [[page sv'] [| |e]]; try exact Hfirst.
  apply script_shows_no_articles_never.
Qed.

(** ** The script, case by case *)

Lemma script_fetching (w : World) (m : Module) (i : App.Inputs) (sv : App.Server) :
  load_module w = Ok m ->
  App.reset_app i = false ->
  App.get_news i = true ->
  strip (App.query i) <> [] ->
  App.script w i sv
  = match App.cached_news_digest m w i (App.query i) (App.initialise sv) with
    | (Ok digest, sv') =>
        (App.header ++ [App.spinner (App.fetching (App.query i))]
         ++ App.display w (App.Holds digest) ++ App.footer i,
         App.set_results (App.Holds digest) sv', App.Finished)
    | (Raise e, sv') =>
        if is_Exception e
        then (App.header
              ++ [App.spinner (App.fetching (App.query i));
                  App.error App.went_wrong; App.exception e]
              ++ App.display w (App.results sv') ++ App.footer i,
              sv', App.Finished)
        else (App.header ++ [App.spinner (App.fetching (App.query i))],
              sv', App.Uncaught e)
    end.
Proof.
  intros Hload Hreset Hget Hquery.
  unfold App.script, App.fetch_logic. rewrite Hload, Hreset, Hget.
  destruct (strip (App.query i)) as [|c s] eqn:Hs; [congruence|].
  cbn [truthy negb].
  destruct (App.cached_news_digest m w i (App.query i) (App.initialise sv))
    as [[digest|e] sv']; [reflexivity|].
  destruct (is_Exception e); reflexivity.
Qed.

Lemma interact_finished (w : World) (i : App.Inputs) (sv : App.Server)
    (page : list App.element) (sv' : App.Server) :
  App.script w i sv = (page, sv', App.Finished) ->
  App.interact w i sv = (page, sv', App.Finished).
Proof.
  intros Hrun. unfold App.interact. now rewrite Hrun.
Qed.

(** X12. An empty digest leaves the page without a word about it: after
    the header come the spinner of the fetch and the footer, and neither
    a message nor a result. The empty digest is what the session keeps. *)
Theorem app_empty_digest_shows_nothing
    (w : World) (m : Module) (i : App.Inputs) (sv sv' : App.Server) :
  load_module w = Ok m ->
  App.reset_app i = false ->
  App.get_news i = true ->
  strip (App.query i) <> [] ->
  App.cached_news_digest m w i (App.query i) (App.initialise sv) = (Ok [], sv') ->
  App.interact w i sv
  = (App.header ++ [App.spinner (App.fetching (App.query i))] ++ App.footer i,
     App.set_results (App.Holds []) sv', App.Finished).
Proof.
  intros Hload Hreset Hget Hquery Hdigest.
  apply interact_finished.
  rewrite (script_fetching w m i sv Hload Hreset Hget Hquery), Hdigest.
  reflexivity.
Qed.

Lemma app_empty_digest_shows_nothing_witness :
  exists sv',
    App.interact rate_limited_world (click "electric vehicles" true false 0)
      App.started
    = (App.header
       ++ [App.spinner (App.fetching (lit "electric vehicles"))]
       ++ App.footer (click "electric vehicles" true false 0),
       App.set_results (App.Holds []) sv', App.Finished).
Proof.
  eexists.
  apply (app_empty_digest_shows_nothing rate_limited_world loaded
           (click "electric vehicles" true false 0) App.started).
  - reflexivity.
  - reflexivity.
  - reflexivity.
  - vm_compute. discriminate.
  - vm_compute. reflexivity.
Defined.

(** X13. A query that is empty or all whitespace is not sent: the page
    shows the warning, then whatever results the session held, and the
    server is as it was: no request, nothing stored. *)
Theorem app_blank_query
    (w : World) (m : Module) (i : App.Inputs) (sv : App.Server) :
  load_module w = Ok m ->
  App.reset_app i = false ->
  App.get_news i = true ->
  strip (App.query i) = [] ->
  App.interact w i sv
  = (App.header ++ [App.warning App.please_enter]
     ++ App.display w (App.results (App.initialise sv)) ++ App.footer i,
     App.initialise sv, App.Finished)
  /\ App.process (App.initialise sv) = App.process sv
  /\ App.cache (App.initialise sv) = App.cache sv.
Proof.
  intros Hload Hreset Hget Hquery. split.
  - apply interact_finished.
    unfold App.script, App.fetch_logic.
    now rewrite Hload, Hreset, Hget, Hquery.
  - unfold App.initialise. destruct (App.results sv); split; reflexivity.
Qed.

Lemma app_blank_query_witness :
  App.interact ev_world (click "   " true false 0) App.started
  = (App.header ++ [App.warning App.please_enter]
     ++ App.display ev_world (App.results (App.initialise App.started))
     ++ App.footer (click "   " true false 0),
     App.initialise App.started, App.Finished)
  /\ App.process (App.initialise App.started) = App.process App.started
  /\ App.cache (App.initialise App.started) = App.cache App.started.
Proof.
  apply (app_blank_query ev_world loaded (click "   " true false 0) App.started);
    reflexivity.
Defined.

Lemma cached_news_digest_raise
    (m : Module) (w : World) (i : App.Inputs) (user_query : pystr)
    (sv sv' : App.Server) (e : exn) :
  App.cached_news_digest m w i user_query sv = (Raise e, sv') ->
  App.cache sv' = App.cache sv /\ App.results sv' = App.results sv.
Proof.
  unfold App.cached_news_digest, App.call_through.
  destruct (lookup user_query (App.cache sv)) as [[stored digest]|].
  - destruct (App.fresh (App.now i) stored); [discriminate|].
    destruct (generate_news_digest m w user_query (App.process sv))
      as [[d|e'] st']; [discriminate|].
    intros H. injection H as _ <-. split; reflexivity.
  - destruct (generate_news_digest m w user_query (App.process sv))
      as [[d|e'] st']; [discriminate|].
    intros H. injection H as _ <-. split; reflexivity.
Qed.

(** X14. When the digest fails with an [Exception], the page shows the
    error and the exception and, below them, the results of the previous
    query, which the session still holds; the failure is not stored, so
    the next click asks again. *)
Theorem app_failure_keeps_results
    (w : World) (m : Module) (i : App.Inputs) (sv sv' : App.Server) (e : exn) :
  load_module w = Ok m ->
  App.reset_app i = false ->
  App.get_news i = true ->
  strip (App.query i) <> [] ->
  App.cached_news_digest m w i (App.query i) (App.initialise sv) = (Raise e, sv') ->
  is_Exception e = true ->
  App.interact w i sv
  = (App.header
     ++ [App.spinner (App.fetching (App.query i));
         App.error App.went_wrong; App.exception e]
     ++ App.display w (App.results (App.initialise sv)) ++ App.footer i,
     sv', App.Finished)
  /\ App.results sv' = App.results (App.initialise sv)
  /\ App.cache sv' = App.cache sv.
Proof.
  intros Hload Hreset Hget Hquery Hdigest He.
  destruct (cached_news_digest_raise m w i (App.query i) (App.initialise sv)
              sv' e Hdigest) as [Hcache Hresults].
  split; [|split].
  - apply interact_finished.
    rewrite (script_fetching w m i sv Hload Hreset Hget Hquery), Hdigest, He.
    now rewrite Hresults.
  - exact Hresults.
  - rewrite Hcache. unfold App.initialise.
    destruct (App.results sv); reflexivity.
Qed.

Lemma app_failure_keeps_results_witness :
  exists sv',
    App.interact no_model_world (click "electric vehicles" true false 0)
      App.started
    = (App.header
       ++ [App.spinner (App.fetching (lit "electric vehicles"));
           App.error App.went_wrong;
           App.exception (LibraryException (lit "OSError"))]
       ++ App.display no_model_world (App.results (App.initialise App.started))
       ++ App.footer (click "electric vehicles" true false 0),
       sv', App.Finished)
    /\ App.results sv' = App.results (App.initialise App.started)
    /\ App.cache sv' = App.cache App.started.
Proof.
  eexists.
  apply (app_failure_keeps_results no_model_world loaded
           (click "electric vehicles" true false 0) App.started).
  - reflexivity.
  - reflexivity.
  - reflexivity.
  - vm_compute. discriminate.
  - vm_compute. reflexivity.
  - reflexivity.
Defined.

(** X15. Reset wins over everything else: the results of the session are
    cleared, the page that comes up shows header and footer only, and
    nothing is fetched, whether or not the other button counts as pressed.
    The store of the cache is not cleared. *)
Theorem app_reset
    (w : World) (m : Module) (i : App.Inputs) (sv : App.Server) :
  load_module w = Ok m ->
  App.reset_app i = true ->
  App.interact w i sv
  = (App.header ++ App.footer i,
     {| App.process := App.process sv;
        App.cache := App.cache sv;
        App.results := App.IsNone |},
     App.Finished).
Proof.
  intros Hload Hreset.
  unfold App.interact, App.script at 1. rewrite Hload, Hreset.
  unfold App.script, App.fetch_logic. rewrite Hload. simpl.
  unfold App.initialise, App.set_results.
  destruct (App.results sv); reflexivity.
Qed.

Lemma app_reset_witness :
  App.interact ev_world (click "electric vehicles" true true 0) App.started
  = (App.header ++ App.footer (click "electric vehicles" true true 0),
     {| App.process := App.process App.started;
        App.cache := App.cache App.started;
        App.results := App.IsNone |},
     App.Finished).
Proof.
  apply (app_reset ev_world loaded (click "electric vehicles" true true 0)
           App.started); reflexivity.
Defined.

(** X16. A digest that is not empty is shown whole: after the spinner,
    the count of its entries, then one expander per entry, in the order
    of the digest and numbered from 1; the session holds the digest. *)
Theorem app_shows_digest
    (w : World) (m : Module) (i : App.Inputs) (sv sv' : App.Server)
    (digest : list Entry.t) :
  load_module w = Ok m ->
  App.reset_app i = false ->
  App.get_news i = true ->
  strip (App.query i) <> [] ->
  App.cached_news_digest m w i (App.query i) (App.initialise sv)
  = (Ok digest, sv') ->
  digest <> [] ->
  App.interact w i sv
  = (App.header ++ [App.spinner (App.fetching (App.query i))]
     ++ (App.success (lit "Found " ++ str_of_int (Z.of_nat (List.length digest))
                      ++ lit " articles!")
         :: App.expanders w 1 digest)
     ++ App.footer i,
     App.set_results (App.Holds digest) sv', App.Finished)
  /\ List.length (App.expanders w 1 digest) = List.length digest
  /\ (forall k r,
        nth_error digest k = Some r ->
        exists children,
          nth_error (App.expanders w 1 digest) k
          = Some (App.expander
                    (str_of_int (1 + Z.of_nat k) ++ lit ". "
                     ++ py_str (py_repr w) (Entry.title r)
                     ++ lit " (" ++ py_str (py_repr w) (Entry.source r)
                     ++ lit ", " ++ py_str (py_repr w) (Entry.date r)
                     ++ lit ")") children)).
Proof.
  intros Hload Hreset Hget Hquery Hdigest Hne.
  split; [|split].
  - apply interact_finished.
    rewrite (script_fetching w m i sv Hload Hreset Hget Hquery), Hdigest.
    unfold App.display. destruct digest as [|r rest]; [congruence|].
    reflexivity.
  - apply expanders_length.
  - clear. generalize 1%Z as first.
    induction digest as [|r' rest IH]; intros first [|k] r Hnth;
      simpl in Hnth; try discriminate.
    + injection Hnth as ->. eexists. cbn [App.expanders nth_error].
      rewrite Z.add_0_r. reflexivity.
    + cbn [App.expanders nth_error].
      replace (first + Z.of_nat (S k))%Z with (first + 1 + Z.of_nat k)%Z by lia.
      exact (IH (first + 1)%Z k r Hnth).
Qed.

Lemma app_shows_digest_witness :
  exists digest sv',
    App.interact ev_world (click "electric vehicles" true false 0) App.started
    = (App.header
       ++ [App.spinner (App.fetching (lit "electric vehicles"))]
       ++ (App.success (lit "Found 3 articles!")
           :: App.expanders ev_world 1 digest)
       ++ App.footer (click "electric vehicles" true false 0),
       App.set_results (App.Holds digest) sv', App.Finished)
    /\ List.length (App.expanders ev_world 1 digest) = 3%nat.
Proof.
  destruct (App.cached_news_digest loaded ev_world
              (click "electric vehicles" true false 0)
              (lit "electric vehicles") (App.initialise App.started))
    as [[digest|e] sv'] eqn:Hdigest; [|vm_compute in Hdigest; discriminate].
  assert (Hlen : List.length digest = 3%nat).
  { vm_compute in Hdigest. injection Hdigest as <- _. reflexivity. }
  exists digest, sv'.
  destruct (app_shows_digest ev_world loaded
              (click "electric vehicles" true false 0) App.started sv' digest)
    as (Hpage & Hcount & _).
  - reflexivity.
  - reflexivity.
  - reflexivity.
  - vm_compute. discriminate.
  - exact Hdigest.
  - intros ->. discriminate Hlen.
  - rewrite Hlen in Hpage, Hcount. split; [exact Hpage | exact Hcount].
Defined.

(** ** The cache *)

Lemma lookup_head {V} (k : pystr) (v : V) (l : list (pystr * V)) :
  lookup k ((k, v) :: l) = Some v.
Proof.
  simpl. now rewrite (proj2 (pystr_eqb_eq k k) eq_refl).
Qed.

Lemma fresh_iff (clock stored : QArith_base.Q) :
  App.fresh clock stored = true
  <-> QArith_base.Qlt clock (QArith_base.Qplus stored App.ttl).
Proof.
  unfold App.fresh. rewrite negb_true_iff. split.
  - intros H. apply QArith_base.Qnot_le_lt. intros Hle.
    apply QArith_base.Qle_bool_iff in Hle. congruence.
  - intros Hlt.
    destruct (QArith_base.Qle_bool (QArith_base.Qplus stored App.ttl) clock)
      eqn:Hb; [|reflexivity].
    apply QArith_base.Qle_bool_iff in Hb.
    exfalso. exact (QArith_base.Qlt_not_le _ _ Hlt Hb).
Qed.

Lemma cached_news_digest_miss
    (m : Module) (w : World) (i : App.Inputs) (user_query : pystr)
    (sv : App.Server) (digest : list Entry.t) (st' : State) :
  lookup user_query (App.cache sv) = None ->
  generate_news_digest m w user_query (App.process sv) = (Ok digest, st') ->
  App.cached_news_digest m w i user_query sv
  = (Ok digest,
     {| App.process := st';
        App.cache := (user_query, (App.stored_at i, digest)) :: App.cache sv;
        App.results := App.results sv |}).
Proof.
  intros Hmiss Hrun. unfold App.cached_news_digest, App.call_through.
  now rewrite Hmiss, Hrun.
Qed.

Lemma cached_news_digest_stored
    (m : Module) (w : World) (i : App.Inputs) (user_query : pystr)
    (sv : App.Server) (stored : QArith_base.Q) (digest : list Entry.t) :
  lookup user_query (App.cache sv) = Some (stored, digest) ->
  (QArith_base.Qlt (App.now i) (QArith_base.Qplus stored App.ttl) ->
   App.cached_news_digest m w i user_query sv = (Ok digest, sv))
  /\ (QArith_base.Qle (QArith_base.Qplus stored App.ttl) (App.now i) ->
      App.cached_news_digest m w i user_query sv
      = App.call_through m w i user_query sv).
Proof.
  intros Hhit. unfold App.cached_news_digest. rewrite Hhit. split.
  - intros Hlt. apply fresh_iff in Hlt. now rewrite Hlt.
  - intros Hle. destruct (App.fresh (App.now i) stored) eqn:Hf; [|reflexivity].
    apply fresh_iff in Hf. exfalso. exact (QArith_base.Qlt_not_le _ _ Hf Hle).
Qed.

(** X17. The fifteen minutes of the cache. A digest computed for a query
    that the store did not have is stored with the time of storing; asked
    again while the clock reads less than that time plus 900 seconds, the
    same digest comes back and the server is untouched, so no request is
    sent and the model is not run; from that time on the pipeline is run
    again. *)
Theorem cached_news_digest_window
    (m : Module) (w : World) (first again : App.Inputs) (user_query : pystr)
    (sv : App.Server) (digest : list Entry.t) (st' : State) :
  lookup user_query (App.cache sv) = None ->
  generate_news_digest m w user_query (App.process sv) = (Ok digest, st') ->
  let sv1 := snd (App.cached_news_digest m w first user_query sv) in
  fst (App.cached_news_digest m w first user_query sv) = Ok digest
  /\ App.process sv1 = st'
  /\ (QArith_base.Qlt (App.now again)
        (QArith_base.Qplus (App.stored_at first) App.ttl) ->
      App.cached_news_digest m w again user_query sv1 = (Ok digest, sv1))
  /\ (QArith_base.Qle (QArith_base.Qplus (App.stored_at first) App.ttl)
        (App.now again) ->
      App.cached_news_digest m w again user_query sv1
      = App.call_through m w again user_query sv1).
Proof.
  intros Hmiss Hrun sv1. subst sv1.
  rewrite (cached_news_digest_miss m w first user_query sv digest st' Hmiss Hrun).
  cbn [fst snd]. split; [reflexivity|]. split; [reflexivity|].
  apply cached_news_digest_stored. cbn [App.cache]. apply lookup_head.
Qed.

Lemma cached_news_digest_window_witness :
  exists digest sv1,
    App.cached_news_digest loaded ev_world
      (click "electric vehicles" true false 0) (lit "electric vehicles")
      App.started = (Ok digest, sv1)
    /\ App.cached_news_digest loaded ev_world
         (click "electric vehicles" true false 902) (lit "electric vehicles")
         sv1 = (Ok digest, sv1)
    /\ List.length (trace (App.process sv1)) = 4%nat.
Proof.
  destruct (generate_news_digest loaded ev_world (lit "electric vehicles")
              (App.process App.started)) as [[digest|e] st'] eqn:Hrun;
    [|vm_compute in Hrun; discriminate].
  destruct (cached_news_digest_window loaded ev_world
              (click "electric vehicles" true false 0)
              (click "electric vehicles" true false 902)
              (lit "electric vehicles") App.started digest st'
              eq_refl Hrun) as (Hfirst & Hprocess & Hhit & _).
  exists digest.
  exists (snd (App.cached_news_digest loaded ev_world
                 (click "electric vehicles" true false 0)
                 (lit "electric vehicles") App.started)).
  split; [|split].
  - rewrite <- Hfirst. apply surjective_pairing.
  - apply Hhit. vm_compute. reflexivity.
  - rewrite Hprocess. vm_compute in Hrun. injection Hrun as _ <-. reflexivity.
Defined.

(** X18. A failed fetch is remembered like a digest. When the request
    raises an [Exception] for a query that the store did not have, the
    empty digest is stored, and the same query asked again within the
    900 seconds gets the empty digest back without a new request. *)
Theorem cached_news_digest_remembers_failure
    (m : Module) (w : World) (first again : App.Inputs) (user_query : pystr)
    (sv : App.Server) (e : exn) :
  lookup user_query (App.cache sv) = None ->
  requests_get w (trace (App.process sv))
    (search_url m w user_query (MAX_ARTICLES m)) 10 = Raise e ->
  is_Exception e = true ->
  QArith_base.Qlt (App.now again)
    (QArith_base.Qplus (App.stored_at first) App.ttl) ->
  let sv1 := snd (App.cached_news_digest m w first user_query sv) in
  fst (App.cached_news_digest m w first user_query sv) = Ok []
  /\ trace (App.process sv1)
     = trace (App.process sv)
       ++ [search_request m w user_query (MAX_ARTICLES m)]
  /\ App.cached_news_digest m w again user_query sv1 = (Ok [], sv1).
Proof.
  intros Hmiss Hget He Hlt sv1. subst sv1.
  assert (Hrun : generate_news_digest m w user_query (App.process sv)
                 = (Ok [], record (search_request m w user_query (MAX_ARTICLES m))
                             (App.process sv))).
  { rewrite generate_news_digest_unfold.
    now rewrite (fetch_articles_transport_error m w user_query
                   (MAX_ARTICLES m) (App.process sv) e Hget He). }
  rewrite (cached_news_digest_miss m w first user_query sv [] _ Hmiss Hrun).
  cbn [fst snd App.process]. split; [reflexivity|]. split; [reflexivity|].
  refine (proj1 (cached_news_digest_stored m w again user_query _
                   (App.stored_at first) [] _) Hlt).
  cbn [App.cache]. apply lookup_head.
Qed.

Lemma cached_news_digest_remembers_failure_witness :
  let sv1 := snd (App.cached_news_digest loaded offline_world
                    (click "electric vehicles" true false 0)
                    (lit "electric vehicles") App.started) in
  fst (App.cached_news_digest loaded offline_world
         (click "electric vehicles" true false 0)
         (lit "electric vehicles") App.started) = Ok []
  /\ trace (App.process sv1)
     = trace (App.process App.started)
       ++ [search_request loaded offline_world (lit "electric vehicles")
             (MAX_ARTICLES loaded)]
  /\ App.cached_news_digest loaded offline_world
       (click "electric vehicles" true false 600)
       (lit "electric vehicles") sv1 = (Ok [], sv1).
Proof.
  apply (cached_news_digest_remembers_failure loaded offline_world
           (click "electric vehicles" true false 0)
           (click "electric vehicles" true false 600)
           (lit "electric vehicles") App.started
           (LibraryException (lit "ConnectionError"))).
  - reflexivity.
  - reflexivity.
  - reflexivity.
  - vm_compute. reflexivity.
Defined.

(** * Properties of [ingest_and_index.py] *)

Lemma pystr_eqb_refl (s : pystr) : pystr_eqb s s = true.
Proof.
  now apply pystr_eqb_eq.
Qed.

(** X19. What the docstring of [save_meta] promises: after saving an
    item, the table has exactly one row with the item's id, the row of
    the item, whatever rows had that id before; the rows with other ids
    are as they were and in the order they were; and a table without
    duplicate ids stays one. *)
Theorem save_meta_replaces (conn : list Ingest.row) (it : Ingest.item) :
  filter (fun r => pystr_eqb (Ingest.col_id r) (Ingest.id it))
    (Ingest.save_meta conn it) = [Ingest.values it]
  /\ filter (fun r => negb (pystr_eqb (Ingest.col_id r) (Ingest.id it)))
       (Ingest.save_meta conn it)
     = filter (fun r => negb (pystr_eqb (Ingest.col_id r) (Ingest.id it))) conn
  /\ (NoDup (map Ingest.col_id conn) ->
      NoDup (map Ingest.col_id (Ingest.save_meta conn it))).
Proof.
  unfold Ingest.save_meta. rewrite !filter_app. simpl.
  rewrite pystr_eqb_refl. simpl. split; [|split].
  - assert (Hnone : forall l,
             filter (fun r => pystr_eqb (Ingest.col_id r) (Ingest.id it))
               (filter (fun r => negb (pystr_eqb (Ingest.col_id r) (Ingest.id it))) l)
             = []).
    { induction l as [|r l IH]; simpl; [reflexivity|].
      destruct (pystr_eqb (Ingest.col_id r) (Ingest.id it)) eqn:Hr; simpl;
        [exact IH | now rewrite Hr]. }
    now rewrite Hnone.
  - rewrite app_nil_r.
    induction conn as [|r l IH]; simpl; [reflexivity|].
    destruct (pystr_eqb (Ingest.col_id r) (Ingest.id it)) eqn:Hr; simpl;
      [exact IH | now rewrite Hr, IH].
  - intros Hnodup. rewrite map_app. simpl.
    apply NoDup_app.
    + induction conn as [|r l IH]; simpl; [constructor|].
      inversion Hnodup as [|? ? Hnotin Hrest]; subst.
      destruct (pystr_eqb (Ingest.col_id r) (Ingest.id it)); simpl; auto.
      constructor; auto.
      intros Hin. apply Hnotin. apply in_map_iff in Hin as (r' & Hid & Hr').
      apply filter_In in Hr' as [Hr' _]. apply in_map_iff. now exists r'.
    + repeat constructor. intros [].
    + intros k Hin [Hk | []]. subst k.
      apply in_map_iff in Hin as (r' & Hid & Hr').
      apply filter_In in Hr' as [_ Hne].
      apply negb_true_iff in Hne.
      assert (Heq : pystr_eqb (Ingest.col_id r') (Ingest.id it) = true)
        by now apply pystr_eqb_eq.
      congruence.
Qed.

(** Saving the first sample article over the table the script leaves. *)
Lemma save_meta_replaces_witness :
  NoDup (map Ingest.col_id
           (Ingest.save_meta (Ingest.main_database None)
              {| Ingest.id := lit "1"; Ingest.title := lit "Updated";
                 Ingest.text := []; Ingest.source := lit "BBC News";
                 Ingest.date := lit "2025-10-05"; Ingest.url := [];
                 Ingest.tags := [] |}))
  /\ List.length
       (Ingest.save_meta (Ingest.main_database None)
          {| Ingest.id := lit "1"; Ingest.title := lit "Updated";
             Ingest.text := []; Ingest.source := lit "BBC News";
             Ingest.date := lit "2025-10-05"; Ingest.url := [];
             Ingest.tags := [] |}) = 3%nat.
Proof.
  split; [|reflexivity].
  apply (save_meta_replaces (Ingest.main_database None)).
  repeat constructor; simpl; intuition discriminate.
Defined.

Lemma filter_filter_and {A} (f g : A -> bool) (l : list A) :
  filter f (filter g l) = filter (fun x => g x && f x) l.
Proof.
  induction l as [|x l IH]; simpl; [reflexivity|].
  destruct (g x); simpl; [destruct (f x); now rewrite IH | exact IH].
Qed.

Lemma save_all_closed_form (docs : list Ingest.item) :
  NoDup (map Ingest.id docs) ->
  forall conn,
    Ingest.save_all docs conn
    = filter (fun r => negb (Ingest.saved_by docs r)) conn
      ++ map Ingest.values docs.
Proof.
  unfold Ingest.save_all.
  induction docs as [|it docs IH]; intros Hnodup conn; simpl.
  - rewrite app_nil_r. induction conn as [|r l IHl]; simpl; congruence.
  - inversion Hnodup as [|? ? Hnotin Hrest]; subst.
    rewrite (IH Hrest). unfold Ingest.save_meta.
    rewrite filter_app, filter_filter_and, <- app_assoc. f_equal.
    + apply filter_ext. intros r. now rewrite negb_orb.
    + simpl.
      assert (Hfresh : Ingest.saved_by docs (Ingest.values it) = false).
      { apply not_true_is_false. intros Hex.
        apply existsb_exists in Hex as (it' & Hin & Heq).
        apply pystr_eqb_eq in Heq. simpl in Heq.
        apply Hnotin. rewrite Heq. now apply in_map. }
      now rewrite Hfresh.
Qed.

Lemma saved_rows_are_saved (docs : list Ingest.item) :
  filter (fun r => negb (Ingest.saved_by docs r)) (map Ingest.values docs) = [].
Proof.
  assert (Hall : forall it, In it docs ->
            negb (Ingest.saved_by docs (Ingest.values it)) = false).
  { intros it Hin. apply negb_false_iff. apply existsb_exists.
    exists it. split; [exact Hin | apply pystr_eqb_refl]. }
  revert Hall. generalize (Ingest.saved_by docs) as p.
  induction docs as [|it docs IH]; intros p Hall; simpl; [reflexivity|].
  rewrite (Hall it (or_introl eq_refl)). apply IH.
  intros it' Hin. apply Hall. now right.
Qed.

(** X20. The loop that saves the documents, for documents with distinct
    ids: afterwards the table is the rows it had under other ids, in
    their order, followed by the rows of the documents, in the order of
    the documents; and running the loop a second time over the same
    documents changes nothing, so the script can be run again on its own
    database. *)
Theorem save_all_rerun (docs : list Ingest.item) (conn : list Ingest.row) :
  NoDup (map Ingest.id docs) ->
  Ingest.save_all docs conn
  = filter (fun r => negb (Ingest.saved_by docs r)) conn
    ++ map Ingest.values docs
  /\ Ingest.save_all docs (Ingest.save_all docs conn)
     = Ingest.save_all docs conn.
Proof.
  intros Hnodup. split; [now apply save_all_closed_form|].
  rewrite !(save_all_closed_form docs Hnodup).
  rewrite filter_app, saved_rows_are_saved, app_nil_r.
  rewrite filter_filter_and. f_equal.
  apply filter_ext. intros r. now rewrite andb_diag.
Qed.

(** The script on a fresh database file, and again on what it left. *)
Lemma save_all_rerun_witness :
  Ingest.main_database None = map Ingest.values Ingest.fetch_sample_articles
  /\ Ingest.main_database (Some (Ingest.main_database None))
     = Ingest.main_database None.
Proof.
  assert (Hids : NoDup (map Ingest.id Ingest.fetch_sample_articles)).
  { repeat constructor; simpl; intuition discriminate. }
  destruct (save_all_rerun Ingest.fetch_sample_articles (Ingest.init_db None)
              Hids) as [Hform Hagain].
  split; [exact Hform | exact Hagain].
Defined.
